(** * samlsp: the SAML session middleware

    A shallow embedding of [samlsp/middleware.go]: the handlers
    [ServeHTTP], [RequireAccount], [getPossibleRequestIDs], [Authorize],
    [IsAuthorized] and [RequireAttribute], together with the parts of the
    Go standard library and of the JWT package they call.

    Conventions.
    - A handler runs to a value or panics: the [Exec] monad.
    - An [http.ResponseWriter] is the log of the calls made on it.
    - A Go map is a [gmap]; [range] over it walks the entries in an order
      the runtime picks, here drawn from a seed ([rangeMap]).
    - Signatures are symbolic: a compact token records who signed it.
    - Calls to [log.Printf] are left out: they touch neither the request
      nor the response. *)

From Stdlib Require Import ZArith NArith Ascii String List Bool Lia.
From stdpp Require Import base option list strings gmap.

Set Warnings "-register-all".

Open Scope string_scope.
Open Scope Z_scope.
Open Scope list_scope.

(** ** Panics *)

Inductive Exec (A : Type) : Type :=
| Ret (a : A)
| Panic (msg : string).
Arguments Ret {A} a.
Arguments Panic {A} msg.

#[global] Instance Exec_ret : MRet Exec := fun A a => Ret a.
#[global] Instance Exec_bind : MBind Exec := fun A B k c =>
  match c with
  | Ret a => k a
  | Panic msg => Panic msg
  end.

Definition panics {A : Type} (c : Exec A) : Prop := exists msg, c = Panic msg.

(** ** Dynamic values: what [interface{}] holds after JSON decoding *)

Inductive value : Type :=
| VNull
| VBool (b : bool)
| VNum (n : Z)
| VStr (s : string)
| VArr (items : list value)
| VObj (fields : list (string * value)).

(** [v.(string)] *)
Definition assertString (v : option value) : Exec string :=
  match v with
  | Some (VStr s) => Ret s
  | _ => Panic "interface conversion: interface {} is not string"
  end.

(** [v.([]interface{})] *)
Definition assertSlice (v : value) : Exec (list value) :=
  match v with
  | VArr items => Ret items
  | _ => Panic "interface conversion: interface {} is not []interface {}"
  end.

(** A [[]string] as it reads back from the token. *)
Definition stringsValue (vs : list string) : value := VArr (VStr <$> vs).

(** ** Keys and signing methods *)

Record rsaPrivateKey : Type := { modulus : N }.
Record rsaPublicKey : Type := { pub_modulus : N }.

(** [key.Public()] *)
Definition Public (k : rsaPrivateKey) : rsaPublicKey :=
  {| pub_modulus := modulus k |}.

(** [key.Size()]: the modulus length in bytes. *)
Definition Size (k : rsaPrivateKey) : N := ((N.size (modulus k) + 7) / 8)%N.

Definition rsaPublicKey_eqb (a b : rsaPublicKey) : bool :=
  N.eqb (pub_modulus a) (pub_modulus b).

Inductive SigningMethod : Type :=
| RS256 | RS384 | RS512
| PS256 | PS384 | PS512
| ES256 | ES384 | ES512
| HS256 | HS384 | HS512
| AlgNone.

(** The type assertion of [t.Method] to the RSA signing method succeeds
    for the RS family only. *)
Definition isSigningMethodRSA (m : SigningMethod) : bool :=
  match m with
  | RS256 | RS384 | RS512 => true
  | _ => false
  end.

(** ** Tokens

    A cookie value is a Go string.  The strings that are compact tokens
    are kept as terms: the method named in the header, the claim set, and
    the key that produced the signature over exactly that header and
    claim set, if any.  Every other string is [Plain]. *)

Inductive tokenString : Type :=
| Plain (s : string)
| Jwt (alg : SigningMethod) (claims : gmap string value)
      (signer : option rsaPrivateKey).

Definition isEmptyString (v : tokenString) : bool :=
  match v with
  | Plain s => String.eqb s ""
  | Jwt _ _ _ => false
  end.

(** [*jwt.Token] *)
Record Token : Type := {
  Method : SigningMethod;
  Claims : gmap string value;
  Valid : bool
}.

(** Modelled from crypto/rsa: PKCS#1 v1.5 signing needs room for the
    digest (32 bytes for SHA-256), its 19-byte prefix and 11 bytes of
    padding; a shorter modulus gives an error. *)
Definition rsaCanSign (k : rsaPrivateKey) : bool := (62 <=? Size k)%N.

(** [token.SignedString(key)] for a token made by
    [jwt.New(jwt.GetSigningMethod("RS256"))]. *)
Definition SignedString (claims : gmap string value) (key : rsaPrivateKey)
  : tokenString + string :=
  if rsaCanSign key then inl (Jwt RS256 claims (Some key))
  else inr "crypto/rsa: message too long for RSA public key size".

(** The registered expiry claim, checked against the clock. *)
Definition verifyExpiresAt (claims : gmap string value) (now : Z) : bool :=
  match claims !! "exp" with
  | Some (VNum exp) => now <=? exp
  | _ => true
  end.

(** The signature check of the RS methods. *)
Definition rsaVerify (signer : option rsaPrivateKey) (pk : rsaPublicKey) : bool :=
  match signer with
  | Some k => rsaPublicKey_eqb (Public k) pk
  | None => false
  end.

(** [jwt.Parse(tokenString, keyFunc)]: decode, ask [keyFunc] for the key,
    validate the claims, verify the signature. *)
Definition jwt_Parse (now : Z) (s : tokenString)
    (keyFunc : Token -> rsaPublicKey + string) : Token + string :=
  match s with
  | Plain _ => inr "token contains an invalid number of segments"
  | Jwt alg claims signer =>
      let t := {| Method := alg; Claims := claims; Valid := false |} in
      match keyFunc t with
      | inr e => inr e
      | inl pk =>
          if negb (verifyExpiresAt claims now) then inr "Token is expired"
          else if negb (rsaVerify signer pk) then inr "crypto/rsa: verification error"
          else inl {| Method := alg; Claims := claims; Valid := true |}
      end
  end.

(** ** net/url, net/http *)

Module url.
Record URL : Type := {
  Path : string;
  (** [u.String()] *)
  String_ : string
}.
End url.

Definition StatusFound : Z := 302.
Definition StatusForbidden : Z := 403.
Definition StatusInternalServerError : Z := 500.

Definition StatusText (code : Z) : string :=
  if code =? 302 then "Found"
  else if code =? 403 then "Forbidden"
  else if code =? 404 then "Not Found"
  else if code =? 500 then "Internal Server Error"
  else "".

(** [time.Time{}], in seconds relative to the Unix epoch. *)
Definition zeroTime : Z := -62135596800.

(** [strings.HasPrefix(s, prefix)] *)
Definition HasPrefix (s pre : string) : bool := String.prefix pre s.

Definition byteIn (lo hi : N) (c : ascii) : bool :=
  ((lo <=? N_of_ascii c) && (N_of_ascii c <=? hi))%N.

Definition isLower (c : ascii) : bool := byteIn 97 122 c.
Definition isUpper (c : ascii) : bool := byteIn 65 90 c.
Definition toUpper (c : ascii) : ascii := ascii_of_N (N_of_ascii c - 32).
Definition toLower (c : ascii) : ascii := ascii_of_N (N_of_ascii c + 32).

(** The bytes of an HTTP token: letters, digits and [!#$%&'*+-.^_`|~]. *)
Definition validHeaderFieldByte (c : ascii) : bool :=
  isLower c || isUpper c || byteIn 48 57 c ||
  existsb (Ascii.eqb c) (list_ascii_of_string "!#$%&'*+-.^_`|~").

Fixpoint canonicalMIMEHeaderKey (upper : bool) (s : string) : string :=
  match s with
  | EmptyString => EmptyString
  | String c rest =>
      let c' := if upper && isLower c then toUpper c
                else if negb upper && isUpper c then toLower c
                else c in
      String c' (canonicalMIMEHeaderKey (Ascii.eqb c' "-") rest)
  end.

(** [http.CanonicalHeaderKey]: the first letter and every letter after a
    hyphen in upper case, the others in lower case; a key with a byte
    that is not a token byte is returned as it is. *)
Definition CanonicalHeaderKey (s : string) : string :=
  if forallb validHeaderFieldByte (list_ascii_of_string s)
  then canonicalMIMEHeaderKey true s
  else s.

(** [h[key]], where a missing key reads as the nil slice. *)
Definition Header_values (h : gmap string (list string)) (key : string) : list string :=
  default [] (h !! key).

(** [h.Add(key, value)] *)
Definition Header_Add (h : gmap string (list string)) (key value : string)
  : gmap string (list string) :=
  let k := CanonicalHeaderKey key in
  <[k := Header_values h k ++ [value]]> h.

Module http.
Record Cookie : Type := {
  Name : string;
  Value : tokenString;
  Path : string;
  Expires : Z;
  MaxAge : Z;
  HttpOnly : bool
}.

(** An incoming request.  [Cookies] is the content of the Cookie header,
    [Form] what [r.ParseForm()] decodes. *)
Record Request : Type := {
  URL : url.URL;
  Header : gmap string (list string);
  Cookies : list (string * tokenString);
  Form : gmap string (list string)
}.

(** The calls a handler makes on its [ResponseWriter]. *)
Inductive Event : Type :=
| EvHeaderSet (key value : string)
| EvHeaderAdd (key value : string)
| EvWrite (buf : string)
| EvWriteHeader (code : Z)
| EvSetCookie (c : Cookie)
| EvError (body : string) (code : Z)
| EvRedirect (target : string) (code : Z)
| EvNotFound.
End http.

Definition ResponseWriter : Type := list http.Event.

(** [http.Handler] *)
Definition Handler : Type := ResponseWriter -> http.Request -> Exec ResponseWriter.

(** A cookie as [r.Cookies()] yields it: name and value only. *)
Definition readCookie (nv : string * tokenString) : http.Cookie :=
  {| http.Name := nv.1; http.Value := nv.2; http.Path := "";
     http.Expires := zeroTime; http.MaxAge := 0; http.HttpOnly := false |}.

(** [r.Cookies()] *)
Definition Request_Cookies (r : http.Request) : list http.Cookie :=
  readCookie <$> http.Cookies r.

(** [r.Cookie(name)]: the first cookie of that name, or [ErrNoCookie]. *)
Definition Request_Cookie (r : http.Request) (name : string) : option http.Cookie :=
  List.find (fun c => String.eqb (http.Name c) name) (Request_Cookies r).

(** [r.Form.Get(key)] *)
Definition Form_Get (r : http.Request) (key : string) : string :=
  match http.Form r !! key with
  | Some (v :: _) => v
  | _ => ""
  end.

Definition withHeader (r : http.Request) (h : gmap string (list string)) : http.Request :=
  {| http.URL := http.URL r; http.Header := h;
     http.Cookies := http.Cookies r; http.Form := http.Form r |}.

(** ** encoding/base64 *)

Definition encodeURL : string :=
  "ABCDEFGHIJKLMNOPQRSTUVWXYZabcdefghijklmnopqrstuvwxyz0123456789-_".

Definition encodeChar (i : N) : ascii :=
  match String.get (N.to_nat (i mod 64)) encodeURL with
  | Some c => c
  | None => "="%char
  end.

(** [base64.URLEncoding.EncodeToString] *)
Fixpoint EncodeToString (src : list Byte.byte) : string :=
  match src with
  | [] => ""
  | [a] =>
      let v := (Byte.to_N a * 65536)%N in
      String (encodeChar (v / 262144)) (String (encodeChar (v / 4096)) "==")
  | [a; b] =>
      let v := (Byte.to_N a * 65536 + Byte.to_N b * 256)%N in
      String (encodeChar (v / 262144)) (String (encodeChar (v / 4096))
        (String (encodeChar (v / 64)) "="))
  | a :: b :: c :: rest =>
      let v := (Byte.to_N a * 65536 + Byte.to_N b * 256 + Byte.to_N c)%N in
      String (encodeChar (v / 262144)) (String (encodeChar (v / 4096))
        (String (encodeChar (v / 64)) (String (encodeChar v)
          (EncodeToString rest))))
  end.

(** ** Iterating over a Go map

    [range] visits every entry once, in an order that may change from
    one loop to the next.  The order is drawn from a seed: at each step
    the seed picks which of the remaining entries comes next. *)

Fixpoint rangeOrder {A : Type} (seed : list nat) (l : list A) : list A :=
  match seed with
  | [] => l
  | i :: seed' =>
      let j := (i mod length l)%nat in
      match l !! j with
      | Some x => x :: rangeOrder seed' (delete j l)
      | None => l
      end
  end.

Definition rangeMap {V : Type} (seed : list nat) (m : gmap string V)
  : list (string * V) :=
  rangeOrder seed (map_to_list m).

(** ** Package saml: the protocol engine *)

Module saml.
Record AttributeValue : Type := { Value : string }.

Record Attribute : Type := {
  FriendlyName : string;
  Name : string;
  Values : list AttributeValue
}.

(** [assertion.AttributeStatement.Attributes] *)
Record Assertion : Type := { Attributes : list Attribute }.

Record AuthnRequest : Type := {
  ID : string;
  (** [req.Redirect(relayState)], as the string of the URL it returns *)
  RedirectURL : string -> string
}.

Definition HTTPRedirectBinding : string :=
  "urn:oasis:names:tc:SAML:2.0:bindings:HTTP-Redirect".

(** Modelled from the spec: the service-provider protocol engine, whose
    source is not part of the middleware.  It is an opaque collaborator
    that exposes the metadata document, [MakeAuthenticationRequest] and
    [ParseResponse]; its key is the signing key the middleware borrows,
    and its two URLs are the configured endpoints.  Results of the
    fallible operations are a value or an error text. *)
Record ServiceProvider : Type := {
  Key : rsaPrivateKey;
  MetadataURL : string;
  AcsURL : string;
  (** [xml.MarshalIndent(sp.Metadata(), ...)] *)
  Metadata : string;
  GetSSOBindingLocation : string -> string;
  MakeAuthenticationRequest : string -> AuthnRequest + string;
  ParseResponse : http.Request -> list string -> Assertion + string
}.
End saml.

(** ** What the handlers read from their surroundings *)

Record Env : Type := {
  (** [url.Parse]; [None] is the nil URL that comes with an error *)
  url_Parse : string -> option url.URL;
  (** [saml.TimeNow()], Unix seconds *)
  TimeNow : Z;
  (** the clock of the JWT package, Unix seconds *)
  TimeFunc : Z;
  (** [saml.RandReader.Read]: the bytes read, or an error *)
  RandReader : nat -> option (list Byte.byte);
  (** Modelled from the spec: [saml.MaxIssueDelay], the protocol engine's
      maximum permitted issue delay, in seconds *)
  MaxIssueDelay : Z;
  (** the order in which this run walks its maps *)
  rangeSeed : list nat
}.

(** ** Package samlsp *)

Record Middleware : Type := {
  ServiceProvider : saml.ServiceProvider;
  AllowIDPInitiated : bool
}.

(** [cookieMaxAge], in seconds *)
Definition cookieMaxAge : Z := 3600.
Definition cookieName : string := "token".

Definition randomBytes (E : Env) (n : nat) : Exec (list Byte.byte) :=
  match RandReader E n with
  | None => Panic "rand: read failed"
  | Some bs => Ret (take n (bs ++ replicate n Byte.x00))
  end.

(** The key function the three calls of [jwt.Parse] share. *)
Definition keyFunc (m : Middleware) (t : Token) : rsaPublicKey + string :=
  if negb (isSigningMethodRSA (Method t)) then inr "Unexpected signing method"
  else inl (Public (saml.Key (ServiceProvider m))).

(** The loop of [getPossibleRequestIDs]. *)
Fixpoint collectRequestIDs (E : Env) (m : Middleware)
    (cookies : list http.Cookie) (rv : list string) : Exec (list string) :=
  match cookies with
  | [] => Ret rv
  | cookie :: rest =>
      if negb (HasPrefix (http.Name cookie) "saml_") || isEmptyString (http.Value cookie)
      then collectRequestIDs E m rest rv
      else
        match jwt_Parse (TimeFunc E) (http.Value cookie) (keyFunc m) with
        | inr _ => collectRequestIDs E m rest rv
        | inl token =>
            if negb (Valid token) then collectRequestIDs E m rest rv
            else
              id ← assertString (Claims token !! "id");
              collectRequestIDs E m rest (rv ++ [id])
        end
  end.

Definition getPossibleRequestIDs (E : Env) (m : Middleware) (r : http.Request)
  : Exec (list string) :=
  rv ← collectRequestIDs E m (Request_Cookies r) [];
  if AllowIDPInitiated m then Ret (rv ++ [""]) else Ret rv.

(** The attribute loop of [Authorize]. *)
Definition claimName (attr : saml.Attribute) : string :=
  if String.eqb (saml.FriendlyName attr) "" then saml.Name attr
  else saml.FriendlyName attr.

Definition valueStrings (attr : saml.Attribute) : list string :=
  saml.Value <$> saml.Values attr.

Definition attributeClaims (attrs : list saml.Attribute) : gmap string value :=
  foldl (fun claims attr => <[claimName attr := stringsValue (valueStrings attr)]> claims)
        ∅ attrs.

(** The claim set of the session token. *)
Definition sessionClaims (E : Env) (assertion : saml.Assertion) : gmap string value :=
  <["exp" := VNum (TimeNow E + cookieMaxAge)]>
    (attributeClaims (saml.Attributes assertion)).

(** The second half of [Authorize]: sign the session token, set it as
    the cookie, redirect. *)
Definition issueSession (E : Env) (m : Middleware) (w : ResponseWriter)
    (assertion : saml.Assertion) (redirectURI : string) : Exec ResponseWriter :=
  match SignedString (sessionClaims E assertion) (saml.Key (ServiceProvider m)) with
  | inr err => Panic err
  | inl signedToken =>
      Ret (w ++ [http.EvSetCookie
                   {| http.Name := cookieName; http.Value := signedToken;
                      http.Path := "/"; http.Expires := zeroTime;
                      http.MaxAge := cookieMaxAge; http.HttpOnly := false |};
                 http.EvRedirect redirectURI StatusFound])
  end.

Definition forbidden (w : ResponseWriter) : ResponseWriter :=
  w ++ [http.EvError (StatusText StatusForbidden) StatusForbidden].

Definition Authorize (E : Env) (m : Middleware) (w : ResponseWriter)
    (r : http.Request) (assertion : saml.Assertion) : Exec ResponseWriter :=
  if negb (String.eqb (Form_Get r "RelayState") "") then
    match Request_Cookie r ("saml_" +:+ Form_Get r "RelayState") with
    | None => Ret (forbidden w)
    | Some stateCookie =>
        match jwt_Parse (TimeFunc E) (http.Value stateCookie) (keyFunc m) with
        | inr _ => Ret (forbidden w)
        | inl state =>
            if negb (Valid state) then Ret (forbidden w)
            else
              redirectURI ← assertString (Claims state !! "uri");
              issueSession E m
                (w ++ [http.EvSetCookie
                         {| http.Name := http.Name stateCookie;
                            http.Value := Plain "";
                            http.Path := http.Path stateCookie;
                            http.Expires := zeroTime;
                            http.MaxAge := http.MaxAge stateCookie;
                            http.HttpOnly := http.HttpOnly stateCookie |}])
                assertion redirectURI
        end
    end
  else issueSession E m w assertion "/".

(** The inner loop of [IsAuthorized]: one header value per element. *)
Fixpoint addClaimValues (name : string) (items : list value)
    (h : gmap string (list string)) : Exec (gmap string (list string)) :=
  match items with
  | [] => Ret h
  | claimValueStr :: rest =>
      s ← assertString (Some claimValueStr);
      addClaimValues name rest (Header_Add h ("X-Saml-" +:+ name) s)
  end.

(** The outer loop of [IsAuthorized], over the claims in the order of
    this run. *)
Fixpoint projectClaims (claims : list (string * value))
    (h : gmap string (list string)) : Exec (gmap string (list string)) :=
  match claims with
  | [] => Ret h
  | (name, claimValue) :: rest =>
      if String.eqb name "exp" then projectClaims rest h
      else
        items ← assertSlice claimValue;
        h' ← addClaimValues name items h;
        projectClaims rest h'
  end.

Definition IsAuthorized (E : Env) (m : Middleware) (r : http.Request)
  : Exec (bool * http.Request) :=
  match Request_Cookie r cookieName with
  | None => Ret (false, r)
  | Some cookie =>
      match jwt_Parse (TimeFunc E) (http.Value cookie) (keyFunc m) with
      | inr _ => Ret (false, r)
      | inl token =>
          if negb (Valid token) then Ret (false, r)
          else if existsb (fun kv => HasPrefix kv.1 "X-Saml")
                          (rangeMap (rangeSeed E) (http.Header r))
          then Panic "X-Saml-* headers should not exist when this function is called"
          else
            h ← projectClaims (rangeMap (rangeSeed E) (Claims token)) (http.Header r);
            Ret (true, withHeader r h)
      end
  end.

Definition RequireAccount (E : Env) (m : Middleware) (handler : Handler) : Handler :=
  fun w r =>
    '(ok, r') ← IsAuthorized E m r;
    if (ok : bool) then handler w r'
    else
      match url_Parse E (saml.AcsURL (ServiceProvider m)) with
      | None => Panic "invalid memory address or nil pointer dereference"
      | Some acsURL =>
          if String.eqb (url.Path (http.URL r')) (url.Path acsURL)
          then Panic "don't wrap Middleware with RequireAccount"
          else
            match saml.MakeAuthenticationRequest (ServiceProvider m)
                    (saml.GetSSOBindingLocation (ServiceProvider m)
                       saml.HTTPRedirectBinding) with
            | inr err => Ret (w ++ [http.EvError err StatusInternalServerError])
            | inl req =>
                rnd ← randomBytes E 42;
                let relayState := EncodeToString rnd in
                let claims : gmap string value :=
                  <["uri" := VStr (url.String_ (http.URL r'))]>
                    (<["id" := VStr (saml.ID req)]> ∅) in
                match SignedString claims (saml.Key (ServiceProvider m)) with
                | inr err => Ret (w ++ [http.EvError err StatusInternalServerError])
                | inl signedState =>
                    Ret (w ++ [http.EvSetCookie
                                 {| http.Name := "saml_" +:+ relayState;
                                    http.Value := signedState;
                                    http.Path := url.Path acsURL;
                                    http.Expires := zeroTime;
                                    http.MaxAge := MaxIssueDelay E;
                                    http.HttpOnly := false |};
                               http.EvHeaderAdd "Location" (saml.RedirectURL req relayState);
                               http.EvWriteHeader StatusFound])
                end
            end
      end.

Definition ServeHTTP (E : Env) (m : Middleware) : Handler :=
  fun w r =>
    match url_Parse E (saml.MetadataURL (ServiceProvider m)) with
    | None => Panic "invalid memory address or nil pointer dereference"
    | Some metadataURL =>
        if String.eqb (url.Path (http.URL r)) (url.Path metadataURL)
        then Ret (w ++ [http.EvHeaderSet "Content-Type" "application/samlmetadata+xml";
                        http.EvWrite (saml.Metadata (ServiceProvider m))])
        else
          match url_Parse E (saml.AcsURL (ServiceProvider m)) with
          | None => Panic "invalid memory address or nil pointer dereference"
          | Some acsURL =>
              if String.eqb (url.Path (http.URL r)) (url.Path acsURL)
              then
                ids ← getPossibleRequestIDs E m r;
                match saml.ParseResponse (ServiceProvider m) r ids with
                | inr _ => Ret (forbidden w)
                | inl assertion => Authorize E m w r assertion
                end
              else Ret (w ++ [http.EvNotFound])
          end
    end.

Definition RequireAttribute (name value : string) (handler : Handler) : Handler :=
  fun w r =>
    if existsb (String.eqb value)
         (Header_values (http.Header r) (CanonicalHeaderKey ("X-Saml-" +:+ name)))
    then handler w r
    else Ret (forbidden w).

(** ** Reading a handler's result *)

(** The claims [jwt.Parse] hands back when it accepts a token string. *)
Definition acceptedClaims (E : Env) (m : Middleware) (s : tokenString)
  : option (gmap string value) :=
  match jwt_Parse (TimeFunc E) s (keyFunc m) with
  | inl token => if Valid token then Some (Claims token) else None
  | inr _ => None
  end.

(** A claim value that is a sequence of strings. *)
Definition isStringSlice (v : value) : bool :=
  match v with
  | VArr items => forallb (fun x => match x with VStr _ => true | _ => false end) items
  | _ => false
  end.

(** The request identifier a correlation cookie contributes, in the words
    of the specification: the cookie carries the reserved prefix, its
    token names an RSA method, is signed by the configured key and is not
    expired, and its [id] claim is a string. *)
Definition verifiedRequestID (E : Env) (m : Middleware) (c : http.Cookie)
  : option string :=
  match http.Value c with
  | Jwt alg claims (Some k) =>
      if HasPrefix (http.Name c) "saml_" && isSigningMethodRSA alg
         && rsaPublicKey_eqb (Public k) (Public (saml.Key (ServiceProvider m)))
         && verifyExpiresAt claims (TimeFunc E)
      then match claims !! "id" with
           | Some (VStr id) => Some id
           | _ => None
           end
      else None
  | _ => None
  end.

(** The attributes of an assertion as the mapping from claim name to
    values: a later attribute of the same claim name replaces an earlier. *)
Definition attributeMapping (attrs : list saml.Attribute) : gmap string (list string) :=
  foldl (fun c attr => <[claimName attr := valueStrings attr]> c) ∅ attrs.



(** The value the jar sends for a name: that of the first cookie. *)
Definition jarValue (jar : list (string * tokenString)) (name : string)
  : option tokenString :=
  snd <$> List.find (fun nv => String.eqb nv.1 name) jar.

(** The header under which [IsAuthorized] projects a claim, and where
    [RequireAttribute] looks an attribute up. *)
Definition projectedHeader (name : string) : string :=
  CanonicalHeaderKey ("X-Saml-" +:+ name).

Definition withCookies (r : http.Request) (jar : list (string * tokenString))
  : http.Request :=
  {| http.URL := http.URL r; http.Header := http.Header r;
     http.Cookies := jar; http.Form := http.Form r |}.

(** The same surroundings with another walk through the maps. *)
Definition withSeed (E : Env) (seed : list nat) : Env :=
  {| url_Parse := url_Parse E; TimeNow := TimeNow E; TimeFunc := TimeFunc E;
     RandReader := RandReader E; MaxIssueDelay := MaxIssueDelay E;
     rangeSeed := seed |}.

(** A claim the projection loop can take: the expiry, which it skips, or
    a sequence of strings. *)
Definition projectable (entry : string * value) : Prop :=
  entry.1 = "exp" \/ isStringSlice entry.2 = true.

(** The cookies [getPossibleRequestIDs] looks into. *)
Definition isCorrelationCookie (c : http.Cookie) : bool :=
  HasPrefix (http.Name c) "saml_" && negb (isEmptyString (http.Value c)).

(** The session cookies among the calls made on a response writer. *)
Definition sessionCookies (w : ResponseWriter) : list http.Cookie :=
  omap (fun ev => match ev with
                  | http.EvSetCookie c =>
                      if String.eqb (http.Name c) cookieName then Some c else None
                  | _ => None
                  end) w.

(** The session cookie [Authorize] sets for an assertion when the key
    signs. *)
Definition sessionCookie (E : Env) (m : Middleware) (assertion : saml.Assertion)
  : http.Cookie :=
  {| http.Name := cookieName;
     http.Value := Jwt RS256 (sessionClaims E assertion)
                       (Some (saml.Key (ServiceProvider m)));
     http.Path := "/"; http.Expires := zeroTime;
     http.MaxAge := cookieMaxAge; http.HttpOnly := false |}.


(** ** A sample deployment, for the concrete runs *)

Definition sampleKey : rsaPrivateKey := {| modulus := N.shiftl 1 511 + 1 |}.

Definition sampleRequestID : string := "id-4f8a".

Definition sampleSP (key : rsaPrivateKey) : saml.ServiceProvider :=
  {| saml.Key := key;
     saml.MetadataURL := "https://sp.example.com/saml/metadata";
     saml.AcsURL := "https://sp.example.com/saml/acs";
     saml.Metadata := "<EntityDescriptor/>";
     saml.GetSSOBindingLocation := fun _ => "https://idp.example.com/sso";
     saml.MakeAuthenticationRequest := fun location =>
       inl {| saml.ID := sampleRequestID;
              saml.RedirectURL := fun relayState =>
                location +:+ "?RelayState=" +:+ relayState |};
     saml.ParseResponse := fun _ _ => inr "no response" |}.

Definition sampleMiddleware : Middleware :=
  {| ServiceProvider := sampleSP sampleKey; AllowIDPInitiated := false |}.


(** The two configured URLs parse to their paths. *)
Definition sampleParse (s : string) : option url.URL :=
  if String.eqb s "https://sp.example.com/saml/metadata"
  then Some {| url.Path := "/saml/metadata"; url.String_ := s |}
  else if String.eqb s "https://sp.example.com/saml/acs"
  then Some {| url.Path := "/saml/acs"; url.String_ := s |}
  else None.

Definition sampleEnv (now : Z) : Env :=
  {| url_Parse := sampleParse;
     TimeNow := now;
     TimeFunc := now;
     RandReader := fun n => Some (replicate n Byte.x41);
     MaxIssueDelay := 90;
     rangeSeed := [2; 0; 1]%nat |}.

Definition sampleRequest (path : string) (headers : list (string * list string))
    (cookies : list (string * tokenString)) (form : list (string * list string))
  : http.Request :=
  {| http.URL := {| url.Path := path; url.String_ := path |};
     http.Header := list_to_map headers;
     http.Cookies := cookies;
     http.Form := list_to_map form |}.

Definition sampleAttribute (friendly name : string) (values : list string)
  : saml.Attribute :=
  {| saml.FriendlyName := friendly; saml.Name := name;
     saml.Values := (fun v => {| saml.Value := v |}) <$> values |}.

Definition sampleAssertion : saml.Assertion :=
  {| saml.Attributes :=
       [sampleAttribute "uid" "urn:oid:0.9.2342.19200300.100.1.1" ["alice"];
        sampleAttribute "" "role" ["user"; "admin"]] |}.

(** An assertion with an attribute named like the expiry claim. *)
Definition expAssertion : saml.Assertion :=
  {| saml.Attributes :=
       [sampleAttribute "" "exp" ["2030-01-01"];
        sampleAttribute "uid" "urn:oid:0.9.2342.19200300.100.1.1" ["alice"]] |}.

(** An assertion with two attributes whose names differ in case only. *)
Definition mailAssertion : saml.Assertion :=
  {| saml.Attributes :=
       [sampleAttribute "" "mail" ["alice@example.com"];
        sampleAttribute "" "Mail" ["root@example.com"]] |}.

(** A protocol engine that accepts the response when the sample request
    identifier is among the possible ones, and the middleware over it. *)
Definition acceptingSP : saml.ServiceProvider :=
  {| saml.Key := sampleKey;
     saml.MetadataURL := "https://sp.example.com/saml/metadata";
     saml.AcsURL := "https://sp.example.com/saml/acs";
     saml.Metadata := "<EntityDescriptor/>";
     saml.GetSSOBindingLocation := fun _ => "https://idp.example.com/sso";
     saml.MakeAuthenticationRequest := fun _ => inr "no request";
     saml.ParseResponse := fun _ ids =>
       if existsb (String.eqb sampleRequestID) ids
       then inl sampleAssertion else inr "unexpected InResponseTo" |}.

Definition acceptingMiddleware : Middleware :=
  {| ServiceProvider := acceptingSP; AllowIDPInitiated := false |}.

(** The application behind the middleware in the concrete runs. *)
Definition sampleHandler : Handler :=
  fun w r => Ret (w ++ [http.EvWrite "application"]).

(** The value of the session cookie [Authorize] sets for the sample
    assertion at time 1000. *)
Definition sampleSessionToken : tokenString :=
  Jwt RS256 (sessionClaims (sampleEnv 1000) sampleAssertion) (Some sampleKey).

(** The value of the correlation cookie [RequireAccount] sets for a
    request to [/private?tab=2]. *)
Definition sampleCorrelationToken : tokenString :=
  Jwt RS256 (<["uri" := VStr "/private?tab=2"]> (<["id" := VStr sampleRequestID]> ∅))
      (Some sampleKey).

(** * Properties *)

(** Case analysis on the result of [jwt.Parse] and on the [Valid] flag,
    the test each of the three call sites makes. *)
Ltac case_Parse :=
  match goal with
  | |- context [jwt_Parse ?now ?s ?kf] =>
      destruct (jwt_Parse now s kf) as [?token | ?err];
      [match goal with
       | |- context [Valid ?t] => destruct (Valid t)
       end |]
  end.

Create HintDb samlsp.

Lemma panics_Panic {A : Type} (msg : string) : panics (@Panic A msg).
Proof. now exists msg. Qed.

Lemma panics_bind {A B : Type} (c : Exec A) (k : A -> Exec B) :
  panics c -> panics (c ≫= k).
Proof. intros [msg ->]. now exists msg. Qed.

#[local] Hint Resolve panics_Panic panics_bind : samlsp.

(** ** The attribute gate *)

Lemma existsb_eqb_In (value : string) (values : list string) :
  existsb (String.eqb value) values = true <-> In value values.
Proof.
  rewrite existsb_exists. split.
  - intros (x & Hin & Heq). apply String.eqb_eq in Heq. now subst.
  - intros Hin. exists value. split; [assumption | apply String.eqb_refl].
Qed.

(** C6. The handler made by [RequireAttribute name value] calls the
    wrapped handler when the values of the projected attribute contain an
    element equal to [value] as a whole string, and answers 403
    otherwise; a request with role user, admin passes the gate for role
    admin, one with role user alone gets 403. *)
Theorem RequireAttribute_exact_match :
  forall (name value : string) (handler : Handler) (w : ResponseWriter)
         (r : http.Request),
    let values :=
      Header_values (http.Header r) (CanonicalHeaderKey ("X-Saml-" +:+ name)) in
    (In value values -> RequireAttribute name value handler w r = handler w r)
    /\ (~ In value values ->
        RequireAttribute name value handler w r
        = Ret (w ++ [http.EvError "Forbidden" 403]))
    /\ (http.Header r !! "X-Saml-Role" = Some ["user"; "admin"] ->
        RequireAttribute "role" "admin" handler w r = handler w r)
    /\ (http.Header r !! "X-Saml-Role" = Some ["user"] ->
        RequireAttribute "role" "admin" handler w r
        = Ret (w ++ [http.EvError "Forbidden" 403])).
Proof.
  intros name value handler w r values.
  assert (Hyes : forall n v, In v (Header_values (http.Header r)
                                     (CanonicalHeaderKey ("X-Saml-" +:+ n))) ->
                 RequireAttribute n v handler w r = handler w r).
  { intros n v Hin. unfold RequireAttribute.
    apply existsb_eqb_In in Hin. now rewrite Hin. }
  assert (Hno : forall n v, ~ In v (Header_values (http.Header r)
                                      (CanonicalHeaderKey ("X-Saml-" +:+ n))) ->
                RequireAttribute n v handler w r
                = Ret (w ++ [http.EvError "Forbidden" 403])).
  { intros n v Hin. unfold RequireAttribute.
    destruct (existsb (String.eqb v) _) eqn:Hex; [| reflexivity].
    apply existsb_eqb_In in Hex. contradiction. }
  repeat split.
  - apply Hyes.
  - apply Hno.
  - intros Hrole. apply Hyes.
    change (CanonicalHeaderKey ("X-Saml-" +:+ "role")) with "X-Saml-Role".
    unfold Header_values. rewrite Hrole. simpl. tauto.
  - intros Hrole. apply Hno.
    change (CanonicalHeaderKey ("X-Saml-" +:+ "role")) with "X-Saml-Role".
    unfold Header_values. rewrite Hrole. simpl.
    intros [H | []]. discriminate H.
Qed.

(** A request whose session projected role user, admin passes; the value
    adm, a prefix of admin, does not. *)
Lemma RequireAttribute_exact_match_witness :
  RequireAttribute "role" "admin" sampleHandler []
    (sampleRequest "/private" [("X-Saml-Role", ["user"; "admin"])] [] [])
  = Ret [http.EvWrite "application"]
  /\ RequireAttribute "role" "adm" sampleHandler []
       (sampleRequest "/private" [("X-Saml-Role", ["user"; "admin"])] [] [])
     = Ret [http.EvError "Forbidden" 403].
Proof.
  split.
  - apply (proj1 (RequireAttribute_exact_match "role" "admin" sampleHandler []
                    (sampleRequest "/private" [("X-Saml-Role", ["user"; "admin"])] [] []))).
    vm_compute. tauto.
  - apply (proj1 (proj2 (RequireAttribute_exact_match "role" "adm" sampleHandler []
                    (sampleRequest "/private" [("X-Saml-Role", ["user"; "admin"])] [] [])))).
    vm_compute. intros [H | [H | []]]; discriminate H.
Defined.

(** ** The dispatcher *)

(** C8, as the code has it.  A request whose path is neither the
    metadata path nor the assertion-consumer path is answered by the
    not-found handler; the middleware holds no application handler to
    pass it to. *)
Theorem ServeHTTP_other_path_not_found :
  forall (E : Env) (m : Middleware) (w : ResponseWriter) (r : http.Request)
         (metadataURL acsURL : url.URL),
    url_Parse E (saml.MetadataURL (ServiceProvider m)) = Some metadataURL ->
    url_Parse E (saml.AcsURL (ServiceProvider m)) = Some acsURL ->
    url.Path (http.URL r) <> url.Path metadataURL ->
    url.Path (http.URL r) <> url.Path acsURL ->
    ServeHTTP E m w r = Ret (w ++ [http.EvNotFound]).
Proof.
  intros E m w r mu au Hmu Hau Hnm Hna. unfold ServeHTTP.
  rewrite Hmu, Hau.
  apply String.eqb_neq in Hnm. apply String.eqb_neq in Hna.
  now rewrite Hnm, Hna.
Qed.

Lemma ServeHTTP_other_path_not_found_witness :
  ServeHTTP (sampleEnv 1000) sampleMiddleware []
    (sampleRequest "/private" [] [] [])
  = Ret [http.EvNotFound].
Proof.
  apply (ServeHTTP_other_path_not_found (sampleEnv 1000) sampleMiddleware []
           (sampleRequest "/private" [] [] [])
           {| url.Path := "/saml/metadata";
              url.String_ := "https://sp.example.com/saml/metadata" |}
           {| url.Path := "/saml/acs";
              url.String_ := "https://sp.example.com/saml/acs" |});
    try reflexivity; simpl; discriminate.
Defined.

(** C8, as stated, fails: on the path [/private], which is neither
    configured path, [ServeHTTP] answers not-found where the claim has
    the application's handler run. *)
Lemma ServeHTTP_other_path_not_passed_through :
  url.Path (http.URL (sampleRequest "/private" [] [] [])) <> "/saml/metadata"
  /\ url.Path (http.URL (sampleRequest "/private" [] [] [])) <> "/saml/acs"
  /\ ServeHTTP (sampleEnv 1000) sampleMiddleware []
       (sampleRequest "/private" [] [] [])
     = Ret [http.EvNotFound]
  /\ ServeHTTP (sampleEnv 1000) sampleMiddleware []
       (sampleRequest "/private" [] [] [])
     <> sampleHandler [] (sampleRequest "/private" [] [] []).
Proof.
  repeat split; try discriminate. 
Qed.

(** ** Issuing the session *)

Lemma Authorize_no_RelayState (E : Env) (m : Middleware) (w : ResponseWriter)
    (r : http.Request) (assertion : saml.Assertion) :
  Form_Get r "RelayState" = "" ->
  Authorize E m w r assertion = issueSession E m w assertion "/".
Proof. intros H. unfold Authorize. now rewrite H. Qed.

(** C10. When the RelayState form field is empty, [Authorize] sets the
    session cookie and redirects to [/]; the result does not depend on
    the cookies of the request nor on [AllowIDPInitiated]. *)
Theorem Authorize_empty_RelayState :
  forall (E : Env) (m : Middleware) (w : ResponseWriter) (r : http.Request)
         (assertion : saml.Assertion),
    Form_Get r "RelayState" = "" ->
    (forall signedToken,
        SignedString (sessionClaims E assertion) (saml.Key (ServiceProvider m))
        = inl signedToken ->
        Authorize E m w r assertion
        = Ret (w ++ [http.EvSetCookie
                       {| http.Name := "token"; http.Value := signedToken;
                          http.Path := "/"; http.Expires := zeroTime;
                          http.MaxAge := 3600; http.HttpOnly := false |};
                     http.EvRedirect "/" 302]))
    /\ (forall (allow : bool) (r' : http.Request),
          Form_Get r' "RelayState" = "" ->
          Authorize E {| ServiceProvider := ServiceProvider m;
                         AllowIDPInitiated := allow |} w r' assertion
          = Authorize E m w r assertion).
Proof.
  intros E m w r assertion Hrs. split.
  - intros signedToken Hsign. rewrite Authorize_no_RelayState by assumption.
    unfold issueSession. now rewrite Hsign.
  - intros allow r' Hrs'. now rewrite !Authorize_no_RelayState.
Qed.

(** An IdP-initiated response that arrives with a correlation cookie in
    the jar: the cookie is neither read nor cleared. *)
Lemma Authorize_empty_RelayState_witness :
  Authorize (sampleEnv 1000) sampleMiddleware []
    (sampleRequest "/saml/acs" [] [("saml_abc", sampleCorrelationToken)] [])
    sampleAssertion
  = Ret [http.EvSetCookie
           {| http.Name := "token"; http.Value := sampleSessionToken;
              http.Path := "/"; http.Expires := zeroTime;
              http.MaxAge := 3600; http.HttpOnly := false |};
         http.EvRedirect "/" 302].
Proof.
  apply (proj1 (Authorize_empty_RelayState (sampleEnv 1000) sampleMiddleware []
                  (sampleRequest "/saml/acs" [] [("saml_abc", sampleCorrelationToken)] [])
                  sampleAssertion eq_refl)).
  reflexivity.
Defined.

(** ** Signing failures *)




(** ** Verifying a token *)

Lemma rsaPublicKey_eqb_eq (a b : rsaPublicKey) :
  rsaPublicKey_eqb a b = true <-> a = b.
Proof.
  unfold rsaPublicKey_eqb. rewrite N.eqb_eq.
  destruct a as [x], b as [y]; simpl. split; congruence.
Qed.

(** What [jwt.Parse] with the middleware's key function accepts. *)
Lemma jwt_Parse_accepts (now : Z) (m : Middleware) (s : tokenString) (t : Token) :
  jwt_Parse now s (keyFunc m) = inl t <->
  exists alg claims k,
    s = Jwt alg claims (Some k)
    /\ isSigningMethodRSA alg = true
    /\ Public k = Public (saml.Key (ServiceProvider m))
    /\ verifyExpiresAt claims now = true
    /\ t = {| Method := alg; Claims := claims; Valid := true |}.
Proof.
  split.
  - destruct s as [raw | alg claims signer]; simpl; [discriminate |].
    unfold keyFunc; simpl.
    destruct (isSigningMethodRSA alg) eqn:Halg; simpl; [| discriminate].
    destruct (verifyExpiresAt claims now) eqn:Hexp; simpl; [| discriminate].
    destruct signer as [k |]; simpl; [| discriminate].
    destruct (rsaPublicKey_eqb _ _) eqn:Hk; simpl; [| discriminate].
    intros [= <-]. exists alg, claims, k.
    apply rsaPublicKey_eqb_eq in Hk. repeat split; assumption.
  - intros (alg & claims & k & -> & Halg & Hk & Hexp & ->). simpl.
    unfold keyFunc; simpl. rewrite Halg, Hexp. simpl.
    apply rsaPublicKey_eqb_eq in Hk. now rewrite Hk.
Qed.

Lemma jwt_Parse_Valid (now : Z) (m : Middleware) (s : tokenString) (t : Token) :
  jwt_Parse now s (keyFunc m) = inl t -> Valid t = true.
Proof.
  intros H. apply jwt_Parse_accepts in H.
  destruct H as (alg & claims & k & _ & _ & _ & _ & ->). reflexivity.
Qed.


(** ** Walking a map *)

Lemma rangeOrder_Permutation {A : Type} (seed : list nat) (l : list A) :
  rangeOrder seed l ≡ₚ l.
Proof.
  revert l. induction seed as [| i seed IH]; intros l; simpl; [reflexivity |].
  destruct (l !! (i mod length l)%nat) as [x |] eqn:Hx; [| reflexivity].
  rewrite IH. symmetry. now apply delete_Permutation.
Qed.

(** Every order of the entries is the walk of some seed. *)
Lemma rangeOrder_reaches {A : Type} (l l' : list A) :
  l ≡ₚ l' -> exists seed, rangeOrder seed l = l'.
Proof.
  revert l. induction l' as [| x l' IH]; intros l Hperm.
  - apply Permutation_nil_r in Hperm. subst l. now exists [].
  - assert (Hx : x ∈ l) by (rewrite Hperm; left).
    apply list_elem_of_lookup in Hx as [j Hj].
    assert (Hdel : delete j l ≡ₚ l').
    { apply (Permutation_cons_inv (a := x)).
      rewrite <- Hperm. symmetry. now apply delete_Permutation. }
    destruct (IH (delete j l) Hdel) as [seed Hseed].
    exists (j :: seed). simpl.
    rewrite Nat.mod_small by (now apply lookup_lt_Some in Hj).
    now rewrite Hj, Hseed.
Qed.

Lemma elem_of_rangeMap {V : Type} (seed : list nat) (m : gmap string V)
    (k : string) (v : V) :
  (k, v) ∈ rangeMap seed m <-> m !! k = Some v.
Proof.
  unfold rangeMap. rewrite rangeOrder_Permutation. apply elem_of_map_to_list.
Qed.

Lemma NoDup_fst_rangeMap {V : Type} (seed : list nat) (m : gmap string V) :
  NoDup (rangeMap seed m).*1.
Proof.
  unfold rangeMap. rewrite rangeOrder_Permutation. apply NoDup_fst_map_to_list.
Qed.

(** The check for reserved headers finds one exactly when there is one. *)
Lemma reserved_header_found (seed : list nat) (h : gmap string (list string)) :
  existsb (fun kv => HasPrefix kv.1 "X-Saml") (rangeMap seed h) = true <->
  exists k vs, h !! k = Some vs /\ HasPrefix k "X-Saml" = true.
Proof.
  rewrite existsb_exists. split.
  - intros ([k vs] & Hin & Hpre). exists k, vs. split; [| assumption].
    apply (elem_of_rangeMap seed). now apply list_elem_of_In.
  - intros (k & vs & Hk & Hpre). exists (k, vs). split; [| assumption].
    apply list_elem_of_In. now apply elem_of_rangeMap.
Qed.

(** ** Validating the session *)

Section SessionCookie.
Variables (E : Env) (m : Middleware) (r : http.Request).

Lemma IsAuthorized_no_cookie :
  Request_Cookie r cookieName = None -> IsAuthorized E m r = Ret (false, r).
Proof. intros H. unfold IsAuthorized. now rewrite H. Qed.

Lemma IsAuthorized_refused (cookie : http.Cookie) :
  Request_Cookie r cookieName = Some cookie ->
  acceptedClaims E m (http.Value cookie) = None ->
  IsAuthorized E m r = Ret (false, r).
Proof.
  intros Hc Hacc. unfold IsAuthorized. rewrite Hc.
  unfold acceptedClaims in Hacc.
  case_Parse; first [discriminate Hacc | reflexivity].
Qed.

Lemma IsAuthorized_accepted (cookie : http.Cookie) (claims : gmap string value) :
  Request_Cookie r cookieName = Some cookie ->
  acceptedClaims E m (http.Value cookie) = Some claims ->
  IsAuthorized E m r
  = if existsb (fun kv => HasPrefix kv.1 "X-Saml")
               (rangeMap (rangeSeed E) (http.Header r))
    then Panic "X-Saml-* headers should not exist when this function is called"
    else h ← projectClaims (rangeMap (rangeSeed E) claims) (http.Header r);
         Ret (true, withHeader r h).
Proof.
  intros Hc Hacc. unfold IsAuthorized. rewrite Hc.
  unfold acceptedClaims in Hacc.
  case_Parse; try discriminate Hacc.
  injection Hacc as <-. reflexivity.
Qed.

Lemma acceptedClaims_Some (s : tokenString) (claims : gmap string value) :
  acceptedClaims E m s = Some claims <->
  exists alg k,
    s = Jwt alg claims (Some k)
    /\ isSigningMethodRSA alg = true
    /\ Public k = Public (saml.Key (ServiceProvider m))
    /\ verifyExpiresAt claims (TimeFunc E) = true.
Proof.
  unfold acceptedClaims. split.
  - destruct (jwt_Parse _ _ _) as [token | e] eqn:Hp; [| discriminate].
    apply jwt_Parse_accepts in Hp.
    destruct Hp as (alg & claims' & k & -> & Halg & Hk & Hexp & ->). simpl.
    intros [= <-]. now exists alg, k.
  - intros (alg & k & -> & Halg & Hk & Hexp).
    assert (Hp : jwt_Parse (TimeFunc E) (Jwt alg claims (Some k)) (keyFunc m)
                 = inl {| Method := alg; Claims := claims; Valid := true |}).
    { apply jwt_Parse_accepts. exists alg, claims, k. repeat split; assumption. }
    now rewrite Hp.
Qed.

End SessionCookie.



(** Where the check for reserved headers sits.  On a request that
    carries a header whose name starts with X-Saml, [IsAuthorized] panics
    once the session cookie has been accepted, before it adds any header;
    without an accepted session cookie the check is not reached and the
    result is false. *)
Lemma IsAuthorized_reserved_header :
  forall (E : Env) (m : Middleware) (r : http.Request) (k : string)
         (vs : list string),
    http.Header r !! k = Some vs ->
    HasPrefix k "X-Saml" = true ->
    (forall cookie claims,
        Request_Cookie r cookieName = Some cookie ->
        acceptedClaims E m (http.Value cookie) = Some claims ->
        IsAuthorized E m r
        = Panic "X-Saml-* headers should not exist when this function is called")
    /\ (Request_Cookie r cookieName = None ->
        IsAuthorized E m r = Ret (false, r))
    /\ (forall cookie,
          Request_Cookie r cookieName = Some cookie ->
          acceptedClaims E m (http.Value cookie) = None ->
          IsAuthorized E m r = Ret (false, r)).
Proof.
  intros E m r k vs Hk Hpre. repeat split.
  - intros cookie claims Hc Hacc.
    rewrite (IsAuthorized_accepted E m r cookie claims Hc Hacc).
    assert (Hfound : existsb (fun kv => HasPrefix kv.1 "X-Saml")
                       (rangeMap (rangeSeed E) (http.Header r)) = true).
    { apply reserved_header_found. now exists k, vs. }
    now rewrite Hfound.
  - apply IsAuthorized_no_cookie.
  - apply IsAuthorized_refused.
Qed.

Lemma IsAuthorized_reserved_header_witness :
  IsAuthorized (sampleEnv 1000) sampleMiddleware
    (sampleRequest "/private" [("X-Saml-Role", ["admin"])]
       [("token", sampleSessionToken)] [])
  = Panic "X-Saml-* headers should not exist when this function is called".
Proof.
  apply (proj1 (IsAuthorized_reserved_header (sampleEnv 1000) sampleMiddleware
                  (sampleRequest "/private" [("X-Saml-Role", ["admin"])]
                     [("token", sampleSessionToken)] [])
                  "X-Saml-Role" ["admin"] eq_refl eq_refl)
           (readCookie ("token", sampleSessionToken))
           (sessionClaims (sampleEnv 1000) sampleAssertion));
    reflexivity.
Defined.

(** C5.  The function is documented to panic whenever it is invoked with
    a request that has a header starting with X-Saml.  On a request with
    the header X-Saml-Role and no session cookie it returns false
    instead: it does not panic, and the header stays on the request. *)
Theorem IsAuthorized_reserved_header_no_session :
  http.Header (sampleRequest "/private" [("X-Saml-Role", ["admin"])] [] [])
    !! "X-Saml-Role" = Some ["admin"]
  /\ IsAuthorized (sampleEnv 1000) sampleMiddleware
       (sampleRequest "/private" [("X-Saml-Role", ["admin"])] [] [])
     = Ret (false, sampleRequest "/private" [("X-Saml-Role", ["admin"])] [] [])
  /\ ~ panics (IsAuthorized (sampleEnv 1000) sampleMiddleware
                 (sampleRequest "/private" [("X-Saml-Role", ["admin"])] [] [])).
Proof.
  split; [reflexivity |]. split; [reflexivity |].
  intros [msg Hmsg]. discriminate Hmsg.
Qed.

(** ** Claims of an unexpected shape *)

Lemma addClaimValues_Ret_strings (name : string) (items : list value)
    (h h' : gmap string (list string)) :
  addClaimValues name items h = Ret h' -> isStringSlice (VArr items) = true.
Proof.
  revert h. induction items as [| x items IH]; intros h; simpl; [reflexivity |].
  destruct x; simpl; try discriminate.
  apply IH.
Qed.

Lemma projectClaims_panics (claims : list (string * value))
    (h : gmap string (list string)) (name : string) (v : value) :
  In (name, v) claims -> name <> "exp" -> isStringSlice v = false ->
  panics (projectClaims claims h).
Proof.
  intros Hin Hname Hshape. revert h.
  induction claims as [| [n0 v0] claims IH]; intros h; [destruct Hin |].
  simpl. destruct (String.eqb n0 "exp") eqn:Hexp.
  - apply String.eqb_eq in Hexp. destruct Hin as [[= -> ->] | Hin]; [congruence |].
    now apply IH.
  - destruct (assertSlice v0) as [items | msg] eqn:Hslice; simpl;
      [| auto with samlsp].
    destruct (addClaimValues n0 items h) as [h' | msg] eqn:Hadd; simpl;
      [| auto with samlsp].
    destruct Hin as [[= -> ->] | Hin]; [| now apply IH].
    destruct v; try discriminate Hslice. injection Hslice as ->.
    apply addClaimValues_Ret_strings in Hadd. congruence.
Qed.

Lemma collectRequestIDs_step (E : Env) (m : Middleware) (cookie : http.Cookie)
    (rest : list http.Cookie) (rv : list string) :
  collectRequestIDs E m (cookie :: rest) rv
  = if negb (HasPrefix (http.Name cookie) "saml_") || isEmptyString (http.Value cookie)
    then collectRequestIDs E m rest rv
    else match acceptedClaims E m (http.Value cookie) with
         | None => collectRequestIDs E m rest rv
         | Some claims =>
             id ← assertString (claims !! "id");
             collectRequestIDs E m rest (rv ++ [id])
         end.
Proof.
  simpl. unfold acceptedClaims.
  destruct (negb _ || _); [reflexivity |].
  case_Parse; reflexivity.
Qed.

Lemma acceptedClaims_not_empty (E : Env) (m : Middleware) (s : tokenString)
    (claims : gmap string value) :
  acceptedClaims E m s = Some claims -> isEmptyString s = false.
Proof.
  intros H. apply acceptedClaims_Some in H.
  destruct H as (alg & k & -> & _). reflexivity.
Qed.

Lemma collectRequestIDs_panics (E : Env) (m : Middleware)
    (cookies : list http.Cookie) (rv : list string) (cookie : http.Cookie)
    (claims : gmap string value) :
  In cookie cookies ->
  HasPrefix (http.Name cookie) "saml_" = true ->
  acceptedClaims E m (http.Value cookie) = Some claims ->
  (forall id, claims !! "id" <> Some (VStr id)) ->
  panics (collectRequestIDs E m cookies rv).
Proof.
  intros Hin Hpre Hacc Hid. revert rv.
  induction cookies as [| c cookies IH]; intros rv; [destruct Hin |].
  rewrite collectRequestIDs_step.
  destruct Hin as [-> | Hin].
  - rewrite Hpre, (acceptedClaims_not_empty _ _ _ _ Hacc), Hacc. simpl.
    destruct (claims !! "id") as [[| | | id | |] |] eqn:Hlook; simpl;
      auto with samlsp.
    now destruct (Hid id).
  - destruct (negb _ || _); [now apply IH |].
    destruct (acceptedClaims E m (http.Value c)) as [claims' |]; [| now apply IH].
    destruct (assertString _) as [id | msg]; simpl; auto with samlsp.
Qed.

(** C9. A token that verifies need not have the shape the code asserts.
    [IsAuthorized] panics when an accepted session token has a claim,
    other than the expiry, whose value is not a sequence of strings;
    [getPossibleRequestIDs] panics when an accepted token in a cookie of
    the reserved prefix has no [id] claim that is a string. *)
Theorem verified_token_wrong_shape_panics :
  forall (E : Env) (m : Middleware) (r : http.Request),
    (forall cookie claims name v,
        Request_Cookie r cookieName = Some cookie ->
        acceptedClaims E m (http.Value cookie) = Some claims ->
        claims !! name = Some v ->
        name <> "exp" ->
        isStringSlice v = false ->
        panics (IsAuthorized E m r))
    /\ (forall cookie claims,
          In cookie (Request_Cookies r) ->
          HasPrefix (http.Name cookie) "saml_" = true ->
          acceptedClaims E m (http.Value cookie) = Some claims ->
          (forall id, claims !! "id" <> Some (VStr id)) ->
          panics (getPossibleRequestIDs E m r)).
Proof.
  intros E m r. split.
  - intros cookie claims name v Hc Hacc Hlook Hname Hshape.
    rewrite (IsAuthorized_accepted E m r cookie claims Hc Hacc).
    destruct (existsb _ _); [auto with samlsp |].
    apply panics_bind, (projectClaims_panics _ _ name v); try assumption.
    apply list_elem_of_In. now apply elem_of_rangeMap.
  - intros cookie claims Hin Hpre Hacc Hid. unfold getPossibleRequestIDs.
    now apply panics_bind, (collectRequestIDs_panics E m _ [] cookie claims).
Qed.

(** The two tokens the middleware issues, each put where the other
    belongs: the correlation token as the session cookie, the session
    token under a correlation-cookie name. *)
Lemma verified_token_wrong_shape_panics_witness :
  panics (IsAuthorized (sampleEnv 1000) sampleMiddleware
            (sampleRequest "/private" [] [("token", sampleCorrelationToken)] []))
  /\ panics (getPossibleRequestIDs (sampleEnv 1000) sampleMiddleware
               (sampleRequest "/saml/acs" [] [("saml_abc", sampleSessionToken)] [])).
Proof.
  split.
  - apply (proj1 (verified_token_wrong_shape_panics (sampleEnv 1000) sampleMiddleware
                    (sampleRequest "/private" [] [("token", sampleCorrelationToken)] []))
             (readCookie ("token", sampleCorrelationToken))
             (<["uri" := VStr "/private?tab=2"]> (<["id" := VStr sampleRequestID]> ∅))
             "uri" (VStr "/private?tab=2"));
      try reflexivity.
    discriminate.
  - apply (proj2 (verified_token_wrong_shape_panics (sampleEnv 1000) sampleMiddleware
                    (sampleRequest "/saml/acs" [] [("saml_abc", sampleSessionToken)] []))
             (readCookie ("saml_abc", sampleSessionToken))
             (sessionClaims (sampleEnv 1000) sampleAssertion));
      try reflexivity.
    + simpl. tauto.
    + intros id. vm_compute. discriminate.
Defined.

(** ** Collecting the request identifiers *)

Lemma verifiedRequestID_accepted (E : Env) (m : Middleware) (c : http.Cookie) :
  verifiedRequestID E m c
  = if HasPrefix (http.Name c) "saml_"
    then match acceptedClaims E m (http.Value c) with
         | Some claims =>
             match claims !! "id" with
             | Some (VStr id) => Some id
             | _ => None
             end
         | None => None
         end
    else None.
Proof.
  unfold verifiedRequestID.
  destruct (acceptedClaims E m (http.Value c)) as [claims |] eqn:Hacc.
  - apply acceptedClaims_Some in Hacc.
    destruct Hacc as (alg & k & -> & Halg & Hk & Hexp).
    apply rsaPublicKey_eqb_eq in Hk. rewrite Halg, Hk, Hexp.
    now destruct (HasPrefix _ _).
  - destruct (http.Value c) as [raw | alg claims [k |]] eqn:Hv;
      try now destruct (HasPrefix _ _).
    destruct (HasPrefix _ _); [| reflexivity]. simpl.
    destruct (isSigningMethodRSA alg) eqn:Halg; [| reflexivity].
    destruct (rsaPublicKey_eqb _ _) eqn:Hk; [| reflexivity].
    destruct (verifyExpiresAt _ _) eqn:Hexp; [| reflexivity].
    exfalso. apply rsaPublicKey_eqb_eq in Hk.
    assert (Hsome : acceptedClaims E m (Jwt alg claims (Some k)) = Some claims).
    { apply acceptedClaims_Some. now exists alg, k. }
    congruence.
Qed.

Lemma collectRequestIDs_omap (E : Env) (m : Middleware)
    (cookies : list http.Cookie) (rv : list string) :
  (forall cookie claims,
      In cookie cookies ->
      HasPrefix (http.Name cookie) "saml_" = true ->
      acceptedClaims E m (http.Value cookie) = Some claims ->
      exists id, claims !! "id" = Some (VStr id)) ->
  collectRequestIDs E m cookies rv
  = Ret (rv ++ omap (verifiedRequestID E m) cookies).
Proof.
  revert rv. induction cookies as [| c cookies IH]; intros rv Hshape.
  - simpl. now rewrite app_nil_r.
  - assert (Hrest : forall cookie claims,
               In cookie cookies ->
               HasPrefix (http.Name cookie) "saml_" = true ->
               acceptedClaims E m (http.Value cookie) = Some claims ->
               exists id, claims !! "id" = Some (VStr id)).
    { intros cookie claims Hin. apply Hshape. now right. }
    rewrite collectRequestIDs_step. simpl omap.
    rewrite verifiedRequestID_accepted.
    destruct (HasPrefix (http.Name c) "saml_") eqn:Hpre; simpl; [| now apply IH].
    destruct (acceptedClaims E m (http.Value c)) as [claims |] eqn:Hacc.
    + rewrite (acceptedClaims_not_empty _ _ _ _ Hacc).
      destruct (Hshape c claims (or_introl eq_refl) Hpre Hacc) as [id Hid].
      rewrite Hid. simpl. rewrite IH by assumption.
      now rewrite <- app_assoc.
    + destruct (isEmptyString _); now apply IH.
Qed.




(** ** The correlation cookie *)

Lemma Request_Cookie_jarValue (r : http.Request) (name : string) :
  Request_Cookie r name
  = (fun v => readCookie (name, v)) <$> jarValue (http.Cookies r) name.
Proof.
  unfold Request_Cookie, Request_Cookies, jarValue.
  induction (http.Cookies r) as [| [n v] jar IH]; [reflexivity |].
  simpl. destruct (String.eqb n name) eqn:Hn; [| exact IH].
  apply String.eqb_eq in Hn. now subst.
Qed.






Section Resolve.
Variables (E : Env) (m : Middleware) (w : ResponseWriter) (r : http.Request)
          (assertion : saml.Assertion).

Lemma Authorize_resolves (stateCookie : http.Cookie)
    (claims : gmap string value) (uri : string) :
  Form_Get r "RelayState" <> "" ->
  Request_Cookie r ("saml_" +:+ Form_Get r "RelayState") = Some stateCookie ->
  acceptedClaims E m (http.Value stateCookie) = Some claims ->
  claims !! "uri" = Some (VStr uri) ->
  Authorize E m w r assertion
  = issueSession E m
      (w ++ [http.EvSetCookie
               {| http.Name := http.Name stateCookie; http.Value := Plain "";
                  http.Path := http.Path stateCookie; http.Expires := zeroTime;
                  http.MaxAge := http.MaxAge stateCookie;
                  http.HttpOnly := http.HttpOnly stateCookie |}])
      assertion uri.
Proof.
  intros Hrs Hc Hacc Huri. unfold Authorize.
  apply String.eqb_neq in Hrs. rewrite Hrs, Hc. simpl.
  unfold acceptedClaims in Hacc.
  case_Parse; try discriminate Hacc.
  injection Hacc as ->. now rewrite Huri.
Qed.


End Resolve.



(** ** Projecting the session claims *)

Lemma Header_Add_values (h : gmap string (list string)) (key value k : string) :
  Header_values (Header_Add h key value) k
  = if decide (CanonicalHeaderKey key = k)
    then Header_values h k ++ [value]
    else Header_values h k.
Proof.
  unfold Header_Add, Header_values at 1. rewrite lookup_insert.
  destruct (decide (CanonicalHeaderKey key = k)) as [<- |]; reflexivity.
Qed.

Lemma Header_Add_other (h : gmap string (list string)) (key value k : string) :
  k <> CanonicalHeaderKey key -> Header_Add h key value !! k = h !! k.
Proof. intros Hne. unfold Header_Add. now rewrite lookup_insert_ne. Qed.

Lemma projectedHeader_reserved (name : string) :
  HasPrefix (projectedHeader name) "X-Saml" = true.
Proof.
  unfold projectedHeader, CanonicalHeaderKey.
  destruct (forallb _ _); reflexivity.
Qed.

Lemma addClaimValues_strings (name : string) (vs : list string)
    (h : gmap string (list string)) :
  exists h',
    addClaimValues name (VStr <$> vs) h = Ret h'
    /\ Header_values h' (projectedHeader name)
       = Header_values h (projectedHeader name) ++ vs
    /\ (forall k, k <> projectedHeader name -> h' !! k = h !! k).
Proof.
  revert h. induction vs as [| v vs IH]; intros h; simpl.
  - exists h. rewrite app_nil_r. auto.
  - destruct (IH (Header_Add h ("X-Saml-" +:+ name) v)) as (h' & Hrun & Hown & Hother).
    exists h'. split; [exact Hrun |]. split.
    + rewrite Hown, Header_Add_values. unfold projectedHeader.
      rewrite decide_True by reflexivity. now rewrite <- app_assoc.
    + intros k Hk. rewrite Hother by assumption. now apply Header_Add_other.
Qed.

Lemma stringsValue_inj (vs vs' : list string) :
  stringsValue vs = stringsValue vs' -> vs = vs'.
Proof.
  unfold stringsValue. intros [= H].
  revert vs' H. induction vs as [| v vs IH]; intros [| v' vs']; simpl;
    try discriminate; [reflexivity |].
  intros [= -> H]. f_equal. now apply IH.
Qed.

(** The outer loop on claims that are sequences of strings, in any order:
    each claim lands under its own header when no two claims share one. *)
Lemma projectClaims_strings (claims : list (string * value))
    (h : gmap string (list string)) :
  NoDup claims.*1 ->
  (forall n v, (n, v) ∈ claims -> n <> "exp" -> exists vs, v = stringsValue vs) ->
  (forall n1 v1 n2 v2,
      (n1, v1) ∈ claims -> (n2, v2) ∈ claims -> n1 <> "exp" -> n2 <> "exp" ->
      projectedHeader n1 = projectedHeader n2 -> n1 = n2) ->
  exists h',
    projectClaims claims h = Ret h'
    /\ (forall n vs, (n, stringsValue vs) ∈ claims -> n <> "exp" ->
          Header_values h' (projectedHeader n)
          = Header_values h (projectedHeader n) ++ vs)
    /\ (forall k,
          (forall n v, (n, v) ∈ claims -> n <> "exp" -> projectedHeader n <> k) ->
          h' !! k = h !! k).
Proof.
  revert h. induction claims as [| [n0 v0] claims IH]; intros h Hnodup Hshape Hinj.
  - exists h. split; [reflexivity |]. split; [| reflexivity].
    intros n vs Hin. now apply elem_of_nil in Hin.
  - apply NoDup_cons in Hnodup as [Hfresh Hnodup]. simpl in Hfresh.
    assert (Hshape' : forall n v, (n, v) ∈ claims -> n <> "exp" ->
                                  exists vs, v = stringsValue vs).
    { intros n v Hin. apply Hshape. now right. }
    assert (Hinj' : forall n1 v1 n2 v2,
               (n1, v1) ∈ claims -> (n2, v2) ∈ claims -> n1 <> "exp" -> n2 <> "exp" ->
               projectedHeader n1 = projectedHeader n2 -> n1 = n2).
    { intros n1 v1 n2 v2 H1 H2. apply (Hinj n1 v1 n2 v2); now right. }
    simpl. destruct (String.eqb n0 "exp") eqn:Hexp.
    + apply String.eqb_eq in Hexp. subst n0.
      destruct (IH h Hnodup Hshape' Hinj') as (h' & Hrun & Hown & Hother).
      exists h'. split; [exact Hrun |]. split.
      * intros n vs Hin Hn. apply elem_of_cons in Hin as [[= -> _] | Hin];
          [congruence | now apply Hown].
      * intros k Hk. apply Hother. intros n v Hin. apply (Hk n v). now right.
    + apply String.eqb_neq in Hexp.
      destruct (Hshape n0 v0 (list_elem_of_here _ _) Hexp) as [vs0 ->].
      simpl.
      destruct (addClaimValues_strings n0 vs0 h) as (h1 & Hrun1 & Hown1 & Hother1).
      rewrite Hrun1. simpl.
      destruct (IH h1 Hnodup Hshape' Hinj') as (h' & Hrun & Hown & Hother).
      exists h'. split; [exact Hrun |].
      assert (Hapart : forall n v, (n, v) ∈ claims -> n <> "exp" ->
                                   projectedHeader n <> projectedHeader n0).
      { intros n v Hin Hn Heq. apply Hfresh.
        assert (n = n0) as ->.
        { apply (Hinj n v n0 (stringsValue vs0)); try assumption;
            [now right | now left]. }
        apply list_elem_of_fmap. now exists (n0, v). }
      split.
      * intros n vs Hin Hn. apply elem_of_cons in Hin as [Heq | Hin].
        -- assert (Hvs : stringsValue vs = stringsValue vs0) by congruence.
           assert (n = n0) as -> by congruence.
           apply stringsValue_inj in Hvs. subst vs0.
           unfold Header_values at 1. rewrite Hother; [exact Hown1 |].
           intros n v Hin Hn' Hsame. now apply (Hapart n v).
        -- rewrite (Hown n vs Hin Hn). unfold Header_values at 1.
           rewrite Hother1; [reflexivity |].
           now apply (Hapart n (stringsValue vs)).
      * intros k Hk. rewrite Hother.
        -- apply Hother1. intros ->.
           apply (Hk n0 (stringsValue vs0)); [now left | assumption | reflexivity].
        -- intros n v Hin. apply (Hk n v). now right.
Qed.

Lemma attributeClaims_mapping (attrs : list saml.Attribute) :
  attributeClaims attrs = stringsValue <$> attributeMapping attrs.
Proof.
  unfold attributeClaims, attributeMapping.
  assert (Hgen : forall c : gmap string (list string),
            foldl (fun claims attr =>
                     <[claimName attr := stringsValue (valueStrings attr)]> claims)
                  (stringsValue <$> c) attrs
            = stringsValue <$>
                foldl (fun c attr => <[claimName attr := valueStrings attr]> c) c attrs).
  { induction attrs as [| attr attrs IH]; intros c; simpl; [reflexivity |].
    rewrite <- IH. now rewrite fmap_insert. }
  rewrite <- Hgen. now rewrite fmap_empty.
Qed.

Lemma sessionClaims_lookup (E : Env) (assertion : saml.Assertion)
    (n : string) (v : value) :
  n <> "exp" ->
  (sessionClaims E assertion !! n = Some v <->
   exists vs, attributeMapping (saml.Attributes assertion) !! n = Some vs
              /\ v = stringsValue vs).
Proof.
  intros Hn. unfold sessionClaims.
  rewrite lookup_insert_ne by congruence.
  rewrite attributeClaims_mapping, lookup_fmap.
  destruct (attributeMapping _ !! n) as [vs |]; simpl; split.
  - intros [= <-]. now exists vs.
  - intros (vs' & [= <-] & ->). reflexivity.
  - discriminate.
  - intros (vs' & Hno & _). discriminate.
Qed.

Lemma sessionClaims_not_expired (E1 E2 : Env) (assertion : saml.Assertion) :
  TimeFunc E2 <= TimeNow E1 + cookieMaxAge ->
  verifyExpiresAt (sessionClaims E1 assertion) (TimeFunc E2) = true.
Proof.
  intros Hle. unfold verifyExpiresAt, sessionClaims.
  rewrite lookup_insert_eq. now apply Z.leb_le.
Qed.

(** C1, as the code has it.  Let the attributes of an assertion form the
    mapping C, with no attribute named exp and no two names that share a
    header after canonicalisation.  [Authorize] sets a session cookie
    such that, on a request that carries it, has no X-Saml header yet and
    arrives within the cookie's lifetime, [IsAuthorized] returns true and
    leaves under the X-Saml headers exactly the claims of C: each
    attribute's values in their order under the attribute's header, no
    other X-Saml header (none for the expiry), the other headers
    untouched. *)
Theorem session_roundtrip_projects_claims :
  forall (E1 E2 : Env) (m : Middleware) (assertion : saml.Assertion)
         (r : http.Request),
    let C := attributeMapping (saml.Attributes assertion) in
    rsaCanSign (saml.Key (ServiceProvider m)) = true ->
    C !! "exp" = None ->
    (forall n1 n2, is_Some (C !! n1) -> is_Some (C !! n2) ->
                   projectedHeader n1 = projectedHeader n2 -> n1 = n2) ->
    TimeFunc E2 <= TimeNow E1 + cookieMaxAge ->
    (forall k, is_Some (http.Header r !! k) -> HasPrefix k "X-Saml" = false) ->
    exists (signedToken : tokenString) (h : gmap string (list string)),
      (forall w uri,
          issueSession E1 m w assertion uri
          = Ret (w ++ [http.EvSetCookie
                         {| http.Name := "token"; http.Value := signedToken;
                            http.Path := "/"; http.Expires := zeroTime;
                            http.MaxAge := 3600; http.HttpOnly := false |};
                       http.EvRedirect uri 302]))
      /\ (jarValue (http.Cookies r) "token" = Some signedToken ->
          IsAuthorized E2 m r = Ret (true, withHeader r h))
      /\ (forall n vs, C !! n = Some vs -> Header_values h (projectedHeader n) = vs)
      /\ (forall k, HasPrefix k "X-Saml" = true -> is_Some (h !! k) ->
                    exists n vs, C !! n = Some vs /\ k = projectedHeader n)
      /\ (forall k, HasPrefix k "X-Saml" = false -> h !! k = http.Header r !! k).
Proof.
  intros E1 E2 m assertion r C Hkey Hexp Hinj Htime Hclean.
  set (claims := sessionClaims E1 assertion).
  set (signedToken := Jwt RS256 claims (Some (saml.Key (ServiceProvider m)))).
  assert (Hin : forall n v, (n, v) ∈ rangeMap (rangeSeed E2) claims -> n <> "exp" ->
                            exists vs, C !! n = Some vs /\ v = stringsValue vs).
  { intros n v Hel Hn. apply elem_of_rangeMap in Hel.
    now apply sessionClaims_lookup in Hel. }
  destruct (projectClaims_strings (rangeMap (rangeSeed E2) claims) (http.Header r))
    as (h & Hrun & Hown & Hother).
  { apply NoDup_fst_rangeMap. }
  { intros n v Hel Hn. destruct (Hin n v Hel Hn) as (vs & _ & ->). now exists vs. }
  { intros n1 v1 n2 v2 H1 H2 Hn1 Hn2.
    destruct (Hin n1 v1 H1 Hn1) as (vs1 & Hc1 & _).
    destruct (Hin n2 v2 H2 Hn2) as (vs2 & Hc2 & _).
    apply Hinj; eauto. }
  assert (Habsent : forall k, HasPrefix k "X-Saml" = true -> http.Header r !! k = None).
  { intros k Hk. destruct (http.Header r !! k) as [vs |] eqn:Hlook; [| reflexivity].
    rewrite (Hclean k) in Hk by eauto. discriminate. }
  exists signedToken, h. split; [| split; [| split; [| split]]].
  - intros w uri. unfold issueSession, SignedString. now rewrite Hkey.
  - intros Hjar.
    assert (Hcookie : Request_Cookie r cookieName
                      = Some (readCookie (cookieName, signedToken))).
    { rewrite Request_Cookie_jarValue. unfold cookieName. now rewrite Hjar. }
    assert (Hacc : acceptedClaims E2 m signedToken = Some claims).
    { apply acceptedClaims_Some. exists RS256, (saml.Key (ServiceProvider m)).
      repeat split. now apply sessionClaims_not_expired. }
    rewrite (IsAuthorized_accepted E2 m r _ claims Hcookie Hacc).
    destruct (existsb _ _) eqn:Hfound.
    + apply reserved_header_found in Hfound.
      destruct Hfound as (k & vs & Hlook & Hk).
      rewrite (Habsent k Hk) in Hlook. discriminate.
    + now rewrite Hrun.
  - intros n vs Hc.
    assert (Hn : n <> "exp") by (intros ->; congruence).
    rewrite (Hown n vs).
    + unfold Header_values.
      now rewrite (Habsent _ (projectedHeader_reserved n)).
    + apply elem_of_rangeMap. apply sessionClaims_lookup; [assumption |].
      now exists vs.
    + assumption.
  - intros k Hk Hsome.
    destruct (decide (Exists (fun e : string * value =>
                                e.1 <> "exp" /\ projectedHeader e.1 = k)
                             (rangeMap (rangeSeed E2) claims))) as [Hex | Hnone].
    + apply Exists_exists in Hex. destruct Hex as ([n v] & Hel & Hn & Heq).
      simpl in Hn, Heq.
      destruct (Hin n v Hel Hn) as (vs & Hc & _). now exists n, vs.
    + rewrite Hother, (Habsent k Hk) in Hsome; [now destruct Hsome |].
      intros n v Hel Hn Heq. apply Hnone. apply Exists_exists.
      now exists (n, v).
  - intros k Hk. apply Hother. intros n v _ _ Heq.
    rewrite <- Heq, projectedHeader_reserved in Hk. discriminate.
Qed.

(** The sample assertion: uid by its friendly name, role with two values
    in order. *)
Lemma session_roundtrip_projects_claims_witness :
  exists h,
    IsAuthorized (sampleEnv 4600) sampleMiddleware
      (sampleRequest "/private" [("Accept", ["*/*"])]
         [("token", sampleSessionToken)] [])
    = Ret (true,
           withHeader (sampleRequest "/private" [("Accept", ["*/*"])]
                         [("token", sampleSessionToken)] []) h)
    /\ Header_values h "X-Saml-Uid" = ["alice"]
    /\ Header_values h "X-Saml-Role" = ["user"; "admin"]
    /\ h !! "X-Saml-Exp" = None.
Proof.
  destruct (session_roundtrip_projects_claims (sampleEnv 1000) (sampleEnv 4600)
              sampleMiddleware sampleAssertion
              (sampleRequest "/private" [("Accept", ["*/*"])]
                 [("token", sampleSessionToken)] []))
    as (signedToken & h & Hissue & Hvalid & Hown & Honly & _).
  - reflexivity.
  - reflexivity.
  - intros n1 n2 [vs1 H1] [vs2 H2].
    assert (Hnames : forall n vs,
               attributeMapping (saml.Attributes sampleAssertion) !! n = Some vs ->
               n = "uid" \/ n = "role").
    { intros n vs. unfold attributeMapping, sampleAssertion. simpl.
      rewrite lookup_insert. case_decide; [now right |].
      rewrite lookup_insert. case_decide; [now left |].
      rewrite lookup_empty. discriminate. }
    destruct (Hnames n1 vs1 H1) as [-> | ->], (Hnames n2 vs2 H2) as [-> | ->];
      vm_compute; congruence.
  - unfold cookieMaxAge. simpl. lia.
  - intros k [vs Hk]. simpl in Hk.
    rewrite lookup_insert in Hk. case_decide; [now subst k |].
    rewrite lookup_empty in Hk. discriminate.
  - assert (Htoken : sampleSessionToken = signedToken).
    { specialize (Hissue [] "/"). unfold issueSession in Hissue.
      simpl in Hissue. now injection Hissue. }
    subst signedToken. exists h. split; [now apply Hvalid |].
    split; [exact (Hown "uid" ["alice"] eq_refl) |].
    split; [exact (Hown "role" ["user"; "admin"] eq_refl) |].
    destruct (h !! "X-Saml-Exp") as [vs |] eqn:Hexp; [| reflexivity].
    destruct (Honly "X-Saml-Exp" eq_refl (ex_intro _ vs Hexp)) as (n & vs' & Hc & Hk).
    exfalso. revert Hc Hk. unfold attributeMapping, sampleAssertion. simpl.
    rewrite lookup_insert. case_decide; [subst n; intros _; vm_compute; discriminate |].
    rewrite lookup_insert. case_decide; [subst n; intros _; vm_compute; discriminate |].
    rewrite lookup_empty. discriminate.
Defined.

(** C1, as stated, fails.  An attribute named exp is replaced by the
    expiry when the token is built and then left out of the projection;
    two attributes whose names differ in case only are projected under
    one header, which then holds the values of both. *)
Lemma session_roundtrip_loses_claims :
  (let signedToken :=
     Jwt RS256 (sessionClaims (sampleEnv 1000) expAssertion) (Some sampleKey) in
   attributeMapping (saml.Attributes expAssertion) !! "exp" = Some ["2030-01-01"]
   /\ Authorize (sampleEnv 1000) sampleMiddleware []
        (sampleRequest "/saml/acs" [] [] []) expAssertion
      = Ret [http.EvSetCookie
               {| http.Name := "token"; http.Value := signedToken;
                  http.Path := "/"; http.Expires := zeroTime;
                  http.MaxAge := 3600; http.HttpOnly := false |};
             http.EvRedirect "/" 302]
   /\ IsAuthorized (sampleEnv 1000) sampleMiddleware
        (sampleRequest "/private" [] [("token", signedToken)] [])
      = Ret (true,
             sampleRequest "/private" [("X-Saml-Uid", ["alice"])]
               [("token", signedToken)] []))
  /\ (let signedToken :=
        Jwt RS256 (sessionClaims (sampleEnv 1000) mailAssertion) (Some sampleKey) in
      attributeMapping (saml.Attributes mailAssertion) !! "mail"
      = Some ["alice@example.com"]
      /\ attributeMapping (saml.Attributes mailAssertion) !! "Mail"
         = Some ["root@example.com"]
      /\ Authorize (sampleEnv 1000) sampleMiddleware []
           (sampleRequest "/saml/acs" [] [] []) mailAssertion
         = Ret [http.EvSetCookie
                  {| http.Name := "token"; http.Value := signedToken;
                     http.Path := "/"; http.Expires := zeroTime;
                     http.MaxAge := 3600; http.HttpOnly := false |};
                http.EvRedirect "/" 302]
      /\ IsAuthorized (sampleEnv 1000) sampleMiddleware
           (sampleRequest "/private" [] [("token", signedToken)] [])
         = Ret (true,
                sampleRequest "/private"
                  [("X-Saml-Mail", ["alice@example.com"; "root@example.com"])]
                  [("token", signedToken)] [])).
Proof. repeat split. Qed.

(** * Further properties of the handlers *)

(** ** What [IsAuthorized] does to the request *)

Lemma isStringSlice_strings (items : list value) :
  isStringSlice (VArr items) = true -> exists vs, items = VStr <$> vs.
Proof.
  induction items as [| x items IH]; simpl; intros H.
  - now exists [].
  - destruct x; try discriminate. destruct (IH H) as [vs ->].
    now exists (s :: vs).
Qed.

Lemma addClaimValues_inv (name : string) (items : list value)
    (h h' : gmap string (list string)) :
  addClaimValues name items h = Ret h' ->
  exists vs,
    items = VStr <$> vs
    /\ Header_values h' (projectedHeader name)
       = Header_values h (projectedHeader name) ++ vs
    /\ (forall k, k <> projectedHeader name -> h' !! k = h !! k).
Proof.
  intros Hrun.
  destruct (isStringSlice_strings items (addClaimValues_Ret_strings _ _ _ _ Hrun))
    as [vs ->].
  destruct (addClaimValues_strings name vs h) as (h1 & Hrun1 & Hown & Hother).
  rewrite Hrun in Hrun1. injection Hrun1 as <-. now exists vs.
Qed.

(** One step of the outer loop that returns. *)
Lemma projectClaims_cons_inv (n : string) (v : value)
    (claims : list (string * value)) (h h' : gmap string (list string)) :
  projectClaims ((n, v) :: claims) h = Ret h' ->
  (n = "exp" /\ projectClaims claims h = Ret h')
  \/ (n <> "exp" /\ exists vs h1,
        v = stringsValue vs
        /\ addClaimValues n (VStr <$> vs) h = Ret h1
        /\ projectClaims claims h1 = Ret h').
Proof.
  simpl. destruct (String.eqb n "exp") eqn:Hexp; intros Hrun.
  - apply String.eqb_eq in Hexp. now left.
  - apply String.eqb_neq in Hexp. right. split; [assumption |].
    destruct v; try discriminate Hrun. simpl in Hrun.
    destruct (addClaimValues n items h) as [h1 | msg] eqn:Hadd;
      [| discriminate Hrun].
    destruct (addClaimValues_inv _ _ _ _ Hadd) as (vs & -> & _).
    now exists vs, h1.
Qed.

Lemma projectClaims_other (claims : list (string * value))
    (h h' : gmap string (list string)) (k : string) :
  projectClaims claims h = Ret h' ->
  HasPrefix k "X-Saml" = false ->
  h' !! k = h !! k.
Proof.
  intros Hrun Hk. revert h Hrun.
  induction claims as [| [n v] claims IH]; intros h Hrun.
  - now injection Hrun as <-.
  - apply projectClaims_cons_inv in Hrun
      as [[_ Hrun] | (_ & vs & h1 & _ & Hadd & Hrun)]; [now apply IH |].
    rewrite (IH h1 Hrun).
    destruct (addClaimValues_inv _ _ _ _ Hadd) as (_ & _ & _ & Hother).
    apply Hother. intros ->. rewrite projectedHeader_reserved in Hk. discriminate.
Qed.

Lemma projectClaims_origin (claims : list (string * value))
    (h h' : gmap string (list string)) (k v : string) :
  projectClaims claims h = Ret h' ->
  v ∈ Header_values h' k ->
  v ∈ Header_values h k
  \/ exists n vs, (n, stringsValue vs) ∈ claims /\ n <> "exp"
                  /\ projectedHeader n = k /\ v ∈ vs.
Proof.
  revert h. induction claims as [| [n x] claims IH]; intros h Hrun Hv.
  - injection Hrun as <-. now left.
  - apply projectClaims_cons_inv in Hrun
      as [[_ Hrun] | (Hn & vs & h1 & -> & Hadd & Hrun)].
    + destruct (IH h Hrun Hv) as [Hold | (n' & vs' & Hin & Hrest)]; [now left |].
      right. exists n', vs'. split; [now right | exact Hrest].
    + destruct (IH h1 Hrun Hv) as [Hold | (n' & vs' & Hin & Hrest)].
      * destruct (addClaimValues_inv _ _ _ _ Hadd) as (vs0 & Heq & Hown & Hother).
        assert (vs0 = vs) as ->
          by (apply stringsValue_inj; unfold stringsValue; congruence).
        destruct (decide (k = projectedHeader n)) as [-> | Hne].
        -- rewrite Hown in Hold. apply elem_of_app in Hold as [Hold | Hnew];
             [now left |].
           right. exists n, vs. repeat split; try assumption. now left.
        -- left. unfold Header_values in *. now rewrite <- (Hother k Hne).
      * right. exists n', vs'. split; [now right | exact Hrest].
Qed.

Lemma IsAuthorized_true_inv (E : Env) (m : Middleware) (r r' : http.Request) :
  IsAuthorized E m r = Ret (true, r') ->
  exists cookie claims h,
    Request_Cookie r cookieName = Some cookie
    /\ acceptedClaims E m (http.Value cookie) = Some claims
    /\ (forall k, is_Some (http.Header r !! k) -> HasPrefix k "X-Saml" = false)
    /\ projectClaims (rangeMap (rangeSeed E) claims) (http.Header r) = Ret h
    /\ r' = withHeader r h.
Proof.
  intros Hrun.
  destruct (Request_Cookie r cookieName) as [cookie |] eqn:Hc;
    [| rewrite IsAuthorized_no_cookie in Hrun by assumption; discriminate].
  destruct (acceptedClaims E m (http.Value cookie)) as [claims |] eqn:Hacc;
    [| rewrite (IsAuthorized_refused E m r cookie) in Hrun by assumption;
       discriminate].
  rewrite (IsAuthorized_accepted E m r cookie claims Hc Hacc) in Hrun.
  destruct (existsb _ _) eqn:Hfound; [discriminate |].
  destruct (projectClaims _ _) as [h | msg] eqn:Hproj; [| discriminate].
  injection Hrun as <-. exists cookie, claims, h. repeat split; try assumption.
  intros k [vs Hk]. destruct (HasPrefix k "X-Saml") eqn:Hpre; [| reflexivity].
  assert (Hyes : existsb (fun kv => HasPrefix kv.1 "X-Saml")
                   (rangeMap (rangeSeed E) (http.Header r)) = true)
    by (apply reserved_header_found; now exists k, vs).
  congruence.
Qed.

Lemma IsAuthorized_false_inv (E : Env) (m : Middleware) (r r' : http.Request) :
  IsAuthorized E m r = Ret (false, r') -> r' = r.
Proof.
  intros Hrun.
  destruct (Request_Cookie r cookieName) as [cookie |] eqn:Hc;
    [| rewrite IsAuthorized_no_cookie in Hrun by assumption; congruence].
  destruct (acceptedClaims E m (http.Value cookie)) as [claims |] eqn:Hacc;
    [| rewrite (IsAuthorized_refused E m r cookie) in Hrun by assumption;
       congruence].
  rewrite (IsAuthorized_accepted E m r cookie claims Hc Hacc) in Hrun.
  destruct (existsb _ _); [discriminate |].
  destruct (projectClaims _ _); discriminate.
Qed.

(** X1. Whatever [IsAuthorized] returns, the request keeps its URL, its
    cookies, its form and every header outside the reserved names; when
    the answer is false the request is not changed at all. *)
Theorem IsAuthorized_preserves_request :
  forall (E : Env) (m : Middleware) (r r' : http.Request) (ok : bool),
    IsAuthorized E m r = Ret (ok, r') ->
    http.URL r' = http.URL r
    /\ http.Cookies r' = http.Cookies r
    /\ http.Form r' = http.Form r
    /\ (forall k, HasPrefix k "X-Saml" = false ->
                  http.Header r' !! k = http.Header r !! k)
    /\ (ok = false -> r' = r).
Proof.
  intros E m r r' [|] Hrun.
  - apply IsAuthorized_true_inv in Hrun
      as (cookie & claims & h & _ & _ & _ & Hproj & ->).
    repeat split; try reflexivity; [| discriminate].
    intros k Hk. simpl. now apply (projectClaims_other _ _ _ _ Hproj).
  - apply IsAuthorized_false_inv in Hrun. subst r'.
    repeat split; reflexivity.
Qed.

Lemma IsAuthorized_preserves_request_witness :
  http.Header (sampleRequest "/private" [("Accept", ["*/*"])]
                 [("token", sampleSessionToken)] []) !! "Accept"
  = Some ["*/*"]
  /\ exists r',
      IsAuthorized (sampleEnv 1000) sampleMiddleware
        (sampleRequest "/private" [("Accept", ["*/*"])]
           [("token", sampleSessionToken)] [])
      = Ret (true, r')
      /\ http.Header r' !! "Accept" = Some ["*/*"]
      /\ http.Cookies r' = [("token", sampleSessionToken)].
Proof.
  split; [reflexivity |].
  eexists. split; [reflexivity |].
  destruct (IsAuthorized_preserves_request (sampleEnv 1000) sampleMiddleware
              (sampleRequest "/private" [("Accept", ["*/*"])]
                 [("token", sampleSessionToken)] [])
              _ true eq_refl) as (_ & Hcookies & _ & Hheaders & _).
  split; [| exact Hcookies].
  rewrite (Hheaders "Accept" eq_refl). reflexivity.
Defined.

(** X2. When [IsAuthorized] returns true, every value under a reserved
    header of the request it hands on is a string of a claim of the
    accepted session token, a claim other than the expiry whose header
    this is. *)
Theorem IsAuthorized_headers_from_token :
  forall (E : Env) (m : Middleware) (r r' : http.Request) (k v : string),
    IsAuthorized E m r = Ret (true, r') ->
    HasPrefix k "X-Saml" = true ->
    v ∈ Header_values (http.Header r') k ->
    exists cookie claims n vs,
      Request_Cookie r cookieName = Some cookie
      /\ acceptedClaims E m (http.Value cookie) = Some claims
      /\ claims !! n = Some (stringsValue vs)
      /\ n <> "exp"
      /\ projectedHeader n = k
      /\ v ∈ vs.
Proof.
  intros E m r r' k v Hrun Hk Hv.
  apply IsAuthorized_true_inv in Hrun
    as (cookie & claims & h & Hc & Hacc & Hclean & Hproj & ->).
  simpl in Hv.
  destruct (projectClaims_origin _ _ _ k v Hproj Hv)
    as [Hold | (n & vs & Hin & Hn & Hck & Hvs)].
  - exfalso. unfold Header_values in Hold.
    destruct (http.Header r !! k) as [old |] eqn:Hlook;
      [| now apply elem_of_nil in Hold].
    rewrite (Hclean k) in Hk by eauto. discriminate.
  - exists cookie, claims, n, vs. repeat split; try assumption.
    now apply elem_of_rangeMap in Hin.
Qed.

Lemma IsAuthorized_headers_from_token_witness :
  exists cookie claims n vs,
    Request_Cookie (sampleRequest "/private" [] [("token", sampleSessionToken)] [])
      cookieName = Some cookie
    /\ acceptedClaims (sampleEnv 1000) sampleMiddleware (http.Value cookie)
       = Some claims
    /\ claims !! n = Some (stringsValue vs)
    /\ n <> "exp"
    /\ projectedHeader n = "X-Saml-Role"
    /\ "admin" ∈ vs.
Proof.
  apply (IsAuthorized_headers_from_token (sampleEnv 1000) sampleMiddleware
           (sampleRequest "/private" [] [("token", sampleSessionToken)] [])
           (sampleRequest "/private"
              [("X-Saml-Uid", ["alice"]); ("X-Saml-Role", ["user"; "admin"])]
              [("token", sampleSessionToken)] [])
           "X-Saml-Role" "admin").
  - reflexivity.
  - reflexivity.
  - vm_compute. right. left.
Defined.

Lemma projectClaims_returns (claims : list (string * value))
    (h : gmap string (list string)) :
  (exists h', projectClaims claims h = Ret h') <-> Forall projectable claims.
Proof.
  revert h. induction claims as [| [n v] claims IH]; intros h.
  - split; [constructor | now exists h].
  - split.
    + intros [h' Hrun]. apply projectClaims_cons_inv in Hrun
        as [[-> Hrun] | (_ & vs & h1 & -> & _ & Hrun)].
      * apply Forall_cons. split; [now left | apply (IH h); eauto].
      * apply Forall_cons. split; [| apply (IH h1); eauto].
        right. simpl. clear. induction vs; simpl; auto.
    + intros Hall. apply Forall_cons in Hall as [Hhead Hall].
      simpl. destruct (String.eqb n "exp") eqn:Hexp; [now apply IH |].
      destruct Hhead as [Hn | Hslice];
        [apply String.eqb_neq in Hexp; contradiction |].
      simpl in Hslice. destruct v; try discriminate Hslice.
      destruct (isStringSlice_strings _ Hslice) as [vs ->]. simpl.
      destruct (addClaimValues_strings n vs h) as (h1 & -> & _). simpl.
      now apply IH.
Qed.

Lemma acceptedClaims_withSeed (E : Env) (m : Middleware) (seed : list nat)
    (s : tokenString) :
  acceptedClaims (withSeed E seed) m s = acceptedClaims E m s.
Proof. reflexivity. Qed.

(** X3. The order in which the runtime walks the maps does not change
    the verdict of [IsAuthorized]: under two orders it returns the same
    boolean, or panics under both. *)
Theorem IsAuthorized_verdict_order_independent :
  forall (E : Env) (m : Middleware) (r : http.Request) (seed : list nat),
    match IsAuthorized E m r, IsAuthorized (withSeed E seed) m r with
    | Ret (ok, _), Ret (ok', _) => ok = ok'
    | Panic _, Panic _ => True
    | _, _ => False
    end.
Proof.
  intros E m r seed.
  destruct (Request_Cookie r cookieName) as [cookie |] eqn:Hc;
    [| now rewrite !IsAuthorized_no_cookie by assumption].
  destruct (acceptedClaims E m (http.Value cookie)) as [claims |] eqn:Hacc;
    [| now rewrite !(IsAuthorized_refused _ m r cookie) by assumption].
  rewrite (IsAuthorized_accepted E m r cookie claims Hc Hacc).
  rewrite (IsAuthorized_accepted (withSeed E seed) m r cookie claims Hc Hacc).
  simpl rangeSeed.
  assert (Hsame : existsb (fun kv => HasPrefix kv.1 "X-Saml")
                    (rangeMap (rangeSeed E) (http.Header r))
                  = existsb (fun kv => HasPrefix kv.1 "X-Saml")
                      (rangeMap seed (http.Header r))).
  { apply eq_true_iff_eq. now rewrite !reserved_header_found. }
  rewrite <- Hsame. destruct (existsb _ _); [exact I |].
  pose proof (projectClaims_returns (rangeMap (rangeSeed E) claims)
                (http.Header r)) as Hone.
  pose proof (projectClaims_returns (rangeMap seed claims) (http.Header r)) as Htwo.
  unfold rangeMap in Hone, Htwo. rewrite rangeOrder_Permutation in Hone, Htwo.
  fold (rangeMap (rangeSeed E) claims) in Hone. fold (rangeMap seed claims) in Htwo.
  destruct (projectClaims (rangeMap (rangeSeed E) claims) _) as [h1 | msg1];
    destruct (projectClaims (rangeMap seed claims) _) as [h2 | msg2]; simpl;
    try reflexivity; try exact I.
  - destruct (proj2 Htwo (proj1 Hone (ex_intro _ h1 eq_refl))) as [h2 Hh2].
    discriminate Hh2.
  - destruct (proj2 Hone (proj1 Htwo (ex_intro _ h2 eq_refl))) as [h1 Hh1].
    discriminate Hh1.
Qed.

(** ** What [RequireAccount] lets through *)

Lemma RequireAccount_not_authorized (E : Env) (m : Middleware)
    (handler handler' : Handler) (w : ResponseWriter) (r : http.Request) :
  (forall r', IsAuthorized E m r <> Ret (true, r')) ->
  RequireAccount E m handler w r = RequireAccount E m handler' w r.
Proof.
  intros Hno. unfold RequireAccount.
  destruct (IsAuthorized E m r) as [[[|] r'] | msg]; simpl; try reflexivity.
  now destruct (Hno r').
Qed.

(** X4. A request that arrives with a header whose name starts with
    X-Saml never reaches the handler wrapped by [RequireAccount]: the
    outcome is the same whatever the handler is. *)
Theorem RequireAccount_never_serves_reserved_header :
  forall (E : Env) (m : Middleware) (handler handler' : Handler)
         (w : ResponseWriter) (r : http.Request) (k : string) (vs : list string),
    http.Header r !! k = Some vs ->
    HasPrefix k "X-Saml" = true ->
    RequireAccount E m handler w r = RequireAccount E m handler' w r.
Proof.
  intros E m handler handler' w r k vs Hk Hpre.
  apply RequireAccount_not_authorized. intros r' Hrun.
  apply IsAuthorized_true_inv in Hrun as (_ & _ & _ & _ & _ & Hclean & _).
  rewrite (Hclean k) in Hpre by eauto. discriminate.
Qed.

Lemma RequireAccount_never_serves_reserved_header_witness :
  RequireAccount (sampleEnv 1000) sampleMiddleware sampleHandler []
    (sampleRequest "/private" [("X-Saml-Role", ["admin"])]
       [("token", sampleSessionToken)] [])
  = RequireAccount (sampleEnv 1000) sampleMiddleware (fun w _ => Ret w) []
      (sampleRequest "/private" [("X-Saml-Role", ["admin"])]
         [("token", sampleSessionToken)] []).
Proof.
  apply (RequireAccount_never_serves_reserved_header (sampleEnv 1000)
           sampleMiddleware sampleHandler (fun w _ => Ret w) []
           (sampleRequest "/private" [("X-Saml-Role", ["admin"])]
              [("token", sampleSessionToken)] [])
           "X-Saml-Role" ["admin"]); reflexivity.
Defined.

(** X5. Without a session cookie that verifies, the handler wrapped by
    [RequireAccount] is never called; and when such a request is for the
    assertion-consumer path itself, [RequireAccount] panics instead of
    redirecting, before it asks the protocol engine for anything. *)
Theorem RequireAccount_without_session :
  forall (E : Env) (m : Middleware) (handler handler' : Handler)
         (w : ResponseWriter) (r : http.Request),
    (forall cookie, Request_Cookie r cookieName = Some cookie ->
                    acceptedClaims E m (http.Value cookie) = None) ->
    RequireAccount E m handler w r = RequireAccount E m handler' w r
    /\ (forall acsURL,
          url_Parse E (saml.AcsURL (ServiceProvider m)) = Some acsURL ->
          url.Path (http.URL r) = url.Path acsURL ->
          RequireAccount E m handler w r
          = Panic "don't wrap Middleware with RequireAccount").
Proof.
  intros E m handler handler' w r Hrefused.
  assert (Hfalse : IsAuthorized E m r = Ret (false, r)).
  { destruct (Request_Cookie r cookieName) as [cookie |] eqn:Hc.
    - apply (IsAuthorized_refused E m r cookie Hc). now apply Hrefused.
    - now apply IsAuthorized_no_cookie. }
  split.
  - apply RequireAccount_not_authorized. intros r'. rewrite Hfalse. discriminate.
  - intros acsURL Hacs Hpath. unfold RequireAccount.
    rewrite Hfalse. simpl. rewrite Hacs, Hpath.
    now rewrite String.eqb_refl.
Qed.

Lemma RequireAccount_without_session_witness :
  RequireAccount (sampleEnv 1000) sampleMiddleware sampleHandler []
    (sampleRequest "/saml/acs" [] [("token", Plain "garbage")] [])
  = Panic "don't wrap Middleware with RequireAccount".
Proof.
  apply (proj2 (RequireAccount_without_session (sampleEnv 1000) sampleMiddleware
                  sampleHandler sampleHandler []
                  (sampleRequest "/saml/acs" [] [("token", Plain "garbage")] [])
                  ltac:(intros cookie [= <-]; reflexivity))
           {| url.Path := "/saml/acs";
              url.String_ := "https://sp.example.com/saml/acs" |});
    reflexivity.
Defined.

(** ** What [Authorize] writes *)

Lemma Request_Cookie_Name (r : http.Request) (name : string) (c : http.Cookie) :
  Request_Cookie r name = Some c -> http.Name c = name.
Proof.
  unfold Request_Cookie. intros H. apply find_some in H as [_ H].
  now apply String.eqb_eq in H.
Qed.

Lemma issueSession_events (E : Env) (m : Middleware) (w w' : ResponseWriter)
    (assertion : saml.Assertion) (uri : string) :
  issueSession E m w assertion uri = Ret w' ->
  rsaCanSign (saml.Key (ServiceProvider m)) = true
  /\ w' = w ++ [http.EvSetCookie (sessionCookie E m assertion);
                http.EvRedirect uri StatusFound].
Proof.
  unfold issueSession, SignedString.
  destruct (rsaCanSign _); [| discriminate].
  intros [= <-]. split; reflexivity.
Qed.

(** The calls [Authorize] adds to the writer when it returns: the 403
    alone, or the session cookie and the redirect, after the cleared
    correlation cookie when there was a relay state. *)
Lemma Authorize_events (E : Env) (m : Middleware) (w w' : ResponseWriter)
    (r : http.Request) (assertion : saml.Assertion) :
  Authorize E m w r assertion = Ret w' ->
  w' = forbidden w
  \/ (exists uri,
        Form_Get r "RelayState" = "" /\ uri = "/"
        /\ w' = w ++ [http.EvSetCookie (sessionCookie E m assertion);
                      http.EvRedirect uri StatusFound])
  \/ (exists uri stateCookie claims,
        Form_Get r "RelayState" <> ""
        /\ Request_Cookie r ("saml_" +:+ Form_Get r "RelayState") = Some stateCookie
        /\ acceptedClaims E m (http.Value stateCookie) = Some claims
        /\ claims !! "uri" = Some (VStr uri)
        /\ w' = w ++ [http.EvSetCookie
                        (readCookie ("saml_" +:+ Form_Get r "RelayState", Plain ""));
                      http.EvSetCookie (sessionCookie E m assertion);
                      http.EvRedirect uri StatusFound]).
Proof.
  unfold Authorize.
  destruct (String.eqb (Form_Get r "RelayState") "") eqn:Hrs; simpl.
  - apply String.eqb_eq in Hrs. intros Hrun.
    apply issueSession_events in Hrun as [_ ->]. right. left. now exists "/".
  - apply String.eqb_neq in Hrs.
    destruct (Request_Cookie _ _) as [stateCookie |] eqn:Hc;
      [| intros [= <-]; now left].
    pose proof (Request_Cookie_Name _ _ _ Hc) as Hname.
    destruct (acceptedClaims E m (http.Value stateCookie)) as [claims |] eqn:Hacc.
    + pose proof Hacc as Hparse. unfold acceptedClaims in Hparse.
      case_Parse; try discriminate Hparse.
      injection Hparse as Hclaims. rewrite Hclaims. simpl.
      destruct (claims !! "uri") as [[| | | uri | |] |] eqn:Huri; simpl;
        try discriminate.
      intros Hrun. apply issueSession_events in Hrun as [_ ->].
      right. right. exists uri, stateCookie, claims.
      repeat split; try assumption.
      rewrite <- app_assoc. simpl. do 3 f_equal.
      unfold Request_Cookie, Request_Cookies in Hc.
      apply find_some in Hc as [Hin _].
      apply in_map_iff in Hin as ([n0 v0] & <- & _).
      simpl in *. now subst n0.
    + unfold acceptedClaims in Hacc.
      case_Parse; try discriminate Hacc; intros [= <-]; now left.
Qed.

Lemma sessionCookies_Authorize (E : Env) (m : Middleware) (w w' : ResponseWriter)
    (r : http.Request) (assertion : saml.Assertion) :
  Authorize E m w r assertion = Ret w' ->
  exists evs,
    w' = w ++ evs
    /\ forall c, c ∈ sessionCookies evs -> c = sessionCookie E m assertion.
Proof.
  intros Hrun.
  destruct (Authorize_events _ _ _ _ _ _ Hrun)
    as [-> | [(uri & _ & _ & ->) | (uri & sc & claims & _ & _ & _ & _ & ->)]];
    eexists; (split; [reflexivity |]); simpl; intros c Hc.
  - now apply elem_of_nil in Hc.
  - now apply list_elem_of_singleton in Hc.
  - now apply list_elem_of_singleton in Hc.
Qed.





(** X8. When the cookie named by the relay state holds a token that
    verifies but has no [uri] claim that is a string, [Authorize] panics:
    it writes no response and issues no session. *)
Theorem Authorize_state_without_uri_panics :
  forall (E : Env) (m : Middleware) (w : ResponseWriter) (r : http.Request)
         (assertion : saml.Assertion) (state : tokenString)
         (claims : gmap string value),
    Form_Get r "RelayState" <> "" ->
    jarValue (http.Cookies r) ("saml_" +:+ Form_Get r "RelayState") = Some state ->
    acceptedClaims E m state = Some claims ->
    (forall uri, claims !! "uri" <> Some (VStr uri)) ->
    panics (Authorize E m w r assertion).
Proof.
  intros E m w r assertion state claims Hrs Hjar Hacc Huri.
  destruct (Authorize E m w r assertion) as [w' |] eqn:Hrun; [| auto with samlsp].
  exfalso.
  destruct (Authorize_events _ _ _ _ _ _ Hrun)
    as [-> | [(uri & Hempty & _) | (uri & sc & claims' & _ & Hc & Hacc' & Hu & _)]].
  - assert (Hno : Authorize E m w r assertion <> Ret (forbidden w)).
    { unfold Authorize. apply String.eqb_neq in Hrs. rewrite Hrs. simpl.
      rewrite Request_Cookie_jarValue, Hjar. simpl.
      unfold acceptedClaims in Hacc. case_Parse; try discriminate Hacc.
      injection Hacc as ->.
      destruct (claims !! "uri") as [[| | | uri | |] |] eqn:Hlook; simpl;
        try discriminate.
      now destruct (Huri uri). }
    contradiction.
  - contradiction.
  - rewrite Request_Cookie_jarValue, Hjar in Hc. injection Hc as <-.
    simpl in Hacc'. rewrite Hacc in Hacc'. injection Hacc' as <-.
    now apply (Huri uri).
Qed.

Lemma Authorize_state_without_uri_panics_witness :
  panics (Authorize (sampleEnv 1000) sampleMiddleware []
            (sampleRequest "/saml/acs" [] [("saml_abc", sampleSessionToken)]
               [("RelayState", ["abc"])])
            sampleAssertion).
Proof.
  apply (Authorize_state_without_uri_panics (sampleEnv 1000) sampleMiddleware []
           (sampleRequest "/saml/acs" [] [("saml_abc", sampleSessionToken)]
              [("RelayState", ["abc"])])
           sampleAssertion sampleSessionToken
           (sessionClaims (sampleEnv 1000) sampleAssertion)).
  - discriminate.
  - reflexivity.
  - reflexivity.
  - intros uri. vm_compute. discriminate.
Defined.

(** ** The relay state *)







(** ** The request identifiers and the assertion consumer *)

Lemma collectRequestIDs_filter (E : Env) (m : Middleware)
    (jar : list (string * tokenString)) (rv : list string) :
  collectRequestIDs E m
    (readCookie <$> List.filter (fun nv => isCorrelationCookie (readCookie nv)) jar) rv
  = collectRequestIDs E m (readCookie <$> jar) rv.
Proof.
  revert rv. induction jar as [| nv jar IH]; intros rv; [reflexivity |].
  rewrite (fmap_cons readCookie nv jar), collectRequestIDs_step.
  simpl List.filter. unfold isCorrelationCookie at 1.
  destruct (HasPrefix (http.Name (readCookie nv)) "saml_") eqn:Hpre;
    destruct (isEmptyString (http.Value (readCookie nv))) eqn:Hempty;
    simpl andb; simpl orb; cbv iota; try apply IH.
  rewrite fmap_cons, collectRequestIDs_step, Hpre, Hempty. simpl.
  destruct (acceptedClaims E m _); [| apply IH].
  destruct (assertString _); simpl; [apply IH | reflexivity].
Qed.

Lemma HasPrefix_saml (relayState : string) :
  HasPrefix ("saml_" +:+ relayState) "saml_" = true.
Proof.
  unfold HasPrefix.
  change ("saml_" +:+ relayState)
    with (String "s" (String "a" (String "m" (String "l" (String "_" relayState))))).
  simpl. now destruct relayState.
Qed.

(** X10. Cookies that do not carry the reserved prefix, the session
    cookie among them, and cookies with an empty value, such as a cleared
    correlation cookie, have no part in [getPossibleRequestIDs]: without
    them the result is the same, panics included. *)
Theorem getPossibleRequestIDs_ignores_other_cookies :
  forall (E : Env) (m : Middleware) (r : http.Request),
    getPossibleRequestIDs E m
      (withCookies r
         (List.filter (fun nv => isCorrelationCookie (readCookie nv))
                      (http.Cookies r)))
    = getPossibleRequestIDs E m r.
Proof.
  intros E m r. unfold getPossibleRequestIDs, Request_Cookies. simpl.
  now rewrite collectRequestIDs_filter.
Qed.

(** X11. The identifier of the authentication request that
    [RequireAccount] sent the browser away with is among the identifiers
    [getPossibleRequestIDs] later hands to the protocol engine, as long
    as the browser sends the cookie back and every other token it sends
    under the reserved prefix has its [id]. *)
Theorem pending_request_is_offered :
  forall (E1 E2 : Env) (m : Middleware) (handler : Handler) (w1 : ResponseWriter)
         (r1 r2 : http.Request) (acsURL : url.URL) (req : saml.AuthnRequest)
         (rnd : list Byte.byte),
    IsAuthorized E1 m r1 = Ret (false, r1) ->
    url_Parse E1 (saml.AcsURL (ServiceProvider m)) = Some acsURL ->
    url.Path (http.URL r1) <> url.Path acsURL ->
    saml.MakeAuthenticationRequest (ServiceProvider m)
      (saml.GetSSOBindingLocation (ServiceProvider m) saml.HTTPRedirectBinding)
    = inl req ->
    randomBytes E1 42 = Ret rnd ->
    rsaCanSign (saml.Key (ServiceProvider m)) = true ->
    (forall cookie claims,
        In cookie (Request_Cookies r2) ->
        HasPrefix (http.Name cookie) "saml_" = true ->
        acceptedClaims E2 m (http.Value cookie) = Some claims ->
        exists id, claims !! "id" = Some (VStr id)) ->
    exists c,
      RequireAccount E1 m handler w1 r1
      = Ret (w1 ++ [http.EvSetCookie c;
                    http.EvHeaderAdd "Location"
                      (saml.RedirectURL req (EncodeToString rnd));
                    http.EvWriteHeader 302])
      /\ ((http.Name c, http.Value c) ∈ http.Cookies r2 ->
          exists ids,
            getPossibleRequestIDs E2 m r2 = Ret ids /\ saml.ID req ∈ ids).
Proof.
  intros E1 E2 m handler w1 r1 r2 acsURL req rnd
         Hauth Hacs Hpath Hreq Hrnd Hkey Hshape.
  eexists. split.
  - unfold RequireAccount. rewrite Hauth. simpl. rewrite Hacs.
    apply String.eqb_neq in Hpath. rewrite Hpath, Hreq, Hrnd. simpl.
    unfold SignedString. rewrite Hkey. reflexivity.
  - simpl. intros Hsent. unfold getPossibleRequestIDs.
    rewrite collectRequestIDs_omap by assumption. simpl.
    assert (Hin : saml.ID req ∈ omap (verifiedRequestID E2 m) (Request_Cookies r2)).
    { apply list_elem_of_omap. eexists. split.
      - unfold Request_Cookies. apply list_elem_of_fmap. eexists.
        split; [reflexivity | exact Hsent].
      - rewrite verifiedRequestID_accepted.
        simpl http.Name. simpl http.Value. rewrite HasPrefix_saml.
        match goal with
        | |- context [acceptedClaims E2 m ?s] =>
            assert (Hacc : acceptedClaims E2 m s
                           = Some (<["uri" := VStr (url.String_ (http.URL r1))]>
                                     (<["id" := VStr (saml.ID req)]> ∅)))
        end.
        { apply acceptedClaims_Some.
          exists RS256, (saml.Key (ServiceProvider m)). repeat split. }
        rewrite Hacc. rewrite lookup_insert_ne by discriminate.
        now rewrite lookup_insert_eq. }
    destruct (AllowIDPInitiated m); eexists; (split; [reflexivity |]);
      [apply elem_of_app; now left | exact Hin].
Qed.

Lemma pending_request_is_offered_witness :
  exists ids,
    getPossibleRequestIDs (sampleEnv 1060) sampleMiddleware
      (sampleRequest "/saml/acs" []
         [("token", Plain "stale");
          ("saml_QUFBQUFBQUFBQUFBQUFBQUFBQUFBQUFBQUFBQUFBQUFBQUFBQUFBQUFB",
           sampleCorrelationToken)] [])
    = Ret ids
    /\ sampleRequestID ∈ ids.
Proof.
  destruct (pending_request_is_offered (sampleEnv 1000) (sampleEnv 1060)
              sampleMiddleware sampleHandler []
              (withCookies
                 {| http.URL := {| url.Path := "/private";
                                   url.String_ := "/private?tab=2" |};
                    http.Header := ∅; http.Cookies := []; http.Form := ∅ |} [])
              (sampleRequest "/saml/acs" []
                 [("token", Plain "stale");
                  ("saml_QUFBQUFBQUFBQUFBQUFBQUFBQUFBQUFBQUFBQUFBQUFBQUFBQUFBQUFB",
                   sampleCorrelationToken)] [])
              {| url.Path := "/saml/acs";
                 url.String_ := "https://sp.example.com/saml/acs" |}
              {| saml.ID := sampleRequestID;
                 saml.RedirectURL := fun rs =>
                   "https://idp.example.com/sso" +:+ "?RelayState=" +:+ rs |}
              (replicate 42 Byte.x41)
              eq_refl eq_refl ltac:(simpl; discriminate) eq_refl eq_refl eq_refl)
    as (c & Hfirst & Hback).
  - intros cookie claims Hin Hpre Hacc. simpl in Hin.
    destruct Hin as [<- | [<- | []]]; vm_compute in Hacc;
      try discriminate Hacc; injection Hacc as <-; eexists; reflexivity.
  - apply Hback. simpl app in Hfirst.
    match type of Hfirst with
    | ?run = _ =>
        assert (Hrun : run
                       = Ret [http.EvSetCookie
                                {| http.Name :=
                                     "saml_QUFBQUFBQUFBQUFBQUFBQUFBQUFBQUFBQUFBQUFBQUFBQUFBQUFBQUFB";
                                   http.Value := sampleCorrelationToken;
                                   http.Path := "/saml/acs";
                                   http.Expires := zeroTime;
                                   http.MaxAge := 90; http.HttpOnly := false |};
                              http.EvHeaderAdd "Location"
                                "https://idp.example.com/sso?RelayState=QUFBQUFBQUFBQUFBQUFBQUFBQUFBQUFBQUFBQUFBQUFBQUFBQUFBQUFB";
                              http.EvWriteHeader 302])
          by reflexivity
    end.
    rewrite Hrun in Hfirst. injection Hfirst as <-.
    simpl. right. left.
Defined.

(** X12. [ServeHTTP] sets a session cookie only on the strength of an
    assertion: whenever the calls it adds to the writer include a cookie
    named token, the protocol engine has accepted the response for the
    collected request identifiers, and the cookie is the one made from
    that assertion. *)
Theorem ServeHTTP_session_needs_assertion :
  forall (E : Env) (m : Middleware) (w w' : ResponseWriter) (r : http.Request),
    ServeHTTP E m w r = Ret w' ->
    exists evs,
      w' = w ++ evs
      /\ forall c,
          c ∈ sessionCookies evs ->
          exists ids assertion,
            getPossibleRequestIDs E m r = Ret ids
            /\ saml.ParseResponse (ServiceProvider m) r ids = inl assertion
            /\ c = sessionCookie E m assertion.
Proof.
  intros E m w w' r. unfold ServeHTTP.
  destruct (url_Parse E (saml.MetadataURL _)) as [metadataURL |]; [| discriminate].
  destruct (String.eqb _ (url.Path metadataURL)).
  { intros [= <-]. eexists. split; [reflexivity |].
    intros c Hc. now apply elem_of_nil in Hc. }
  destruct (url_Parse E (saml.AcsURL _)) as [acsURL |]; [| discriminate].
  destruct (String.eqb _ (url.Path acsURL)).
  - destruct (getPossibleRequestIDs E m r) as [ids | msg]; [| discriminate]. simpl.
    destruct (saml.ParseResponse _ r ids) as [assertion | err] eqn:Hparse.
    + intros Hrun.
      destruct (sessionCookies_Authorize _ _ _ _ _ _ Hrun) as (evs & -> & Honly).
      exists evs. split; [reflexivity |].
      intros c Hc. exists ids, assertion. auto.
    + intros [= <-]. eexists. split; [reflexivity |].
      intros c Hc. now apply elem_of_nil in Hc.
  - intros [= <-]. eexists. split; [reflexivity |].
    intros c Hc. now apply elem_of_nil in Hc.
Qed.

(** The one session cookie of a completed login comes from the assertion
    the engine returned. *)
Lemma ServeHTTP_session_needs_assertion_witness :
  exists ids assertion,
    getPossibleRequestIDs (sampleEnv 1060) acceptingMiddleware
      (sampleRequest "/saml/acs" [] [("saml_abc", sampleCorrelationToken)]
         [("RelayState", ["abc"])])
    = Ret ids
    /\ saml.ParseResponse acceptingSP
         (sampleRequest "/saml/acs" [] [("saml_abc", sampleCorrelationToken)]
            [("RelayState", ["abc"])]) ids
       = inl assertion
    /\ sessionCookie (sampleEnv 1060) acceptingMiddleware sampleAssertion
       = sessionCookie (sampleEnv 1060) acceptingMiddleware assertion.
Proof.
  destruct (ServeHTTP_session_needs_assertion (sampleEnv 1060) acceptingMiddleware
              []
              [http.EvSetCookie (readCookie ("saml_abc", Plain ""));
               http.EvSetCookie
                 (sessionCookie (sampleEnv 1060) acceptingMiddleware sampleAssertion);
               http.EvRedirect "/private?tab=2" 302]
              (sampleRequest "/saml/acs" [] [("saml_abc", sampleCorrelationToken)]
                 [("RelayState", ["abc"])])
              eq_refl) as (evs & Hevs & Honly).
  simpl in Hevs. subst evs.
  apply (Honly (sessionCookie (sampleEnv 1060) acceptingMiddleware sampleAssertion)).
  simpl. left.
Defined.

(** X13. The assertion consumer completes a login.  For a request to the
    assertion-consumer path whose relay state names a correlation cookie
    that verifies, and whose response the protocol engine accepts for
    the collected request identifiers, [ServeHTTP] clears the correlation
    cookie, sets the session cookie made from the assertion and redirects
    to the URI the correlation token holds. *)
Theorem ServeHTTP_completes_login :
  forall (E : Env) (m : Middleware) (w : ResponseWriter) (r : http.Request)
         (metadataURL acsURL : url.URL) (state : tokenString)
         (claims : gmap string value) (uri : string)
         (assertion : saml.Assertion),
    url_Parse E (saml.MetadataURL (ServiceProvider m)) = Some metadataURL ->
    url_Parse E (saml.AcsURL (ServiceProvider m)) = Some acsURL ->
    url.Path (http.URL r) <> url.Path metadataURL ->
    url.Path (http.URL r) = url.Path acsURL ->
    Form_Get r "RelayState" <> "" ->
    jarValue (http.Cookies r) ("saml_" +:+ Form_Get r "RelayState") = Some state ->
    acceptedClaims E m state = Some claims ->
    claims !! "uri" = Some (VStr uri) ->
    (forall cookie claims',
        In cookie (Request_Cookies r) ->
        HasPrefix (http.Name cookie) "saml_" = true ->
        acceptedClaims E m (http.Value cookie) = Some claims' ->
        exists id, claims' !! "id" = Some (VStr id)) ->
    saml.ParseResponse (ServiceProvider m) r
      (omap (verifiedRequestID E m) (Request_Cookies r)
       ++ (if AllowIDPInitiated m then [""] else []))
    = inl assertion ->
    rsaCanSign (saml.Key (ServiceProvider m)) = true ->
    ServeHTTP E m w r
    = Ret (w ++ [http.EvSetCookie
                   (readCookie ("saml_" +:+ Form_Get r "RelayState", Plain ""));
                 http.EvSetCookie (sessionCookie E m assertion);
                 http.EvRedirect uri 302]).
Proof.
  intros E m w r metadataURL acsURL state claims uri assertion
         Hmu Hau Hnm Hacs Hrs Hjar Hacc Huri Hshape Hparse Hkey.
  unfold ServeHTTP. rewrite Hmu, Hau.
  apply String.eqb_neq in Hnm. rewrite Hnm, Hacs, String.eqb_refl.
  unfold getPossibleRequestIDs.
  rewrite collectRequestIDs_omap by assumption. simpl.
  assert (Hids : (if AllowIDPInitiated m
                  then Ret (omap (verifiedRequestID E m) (Request_Cookies r) ++ [""])
                  else Ret (omap (verifiedRequestID E m) (Request_Cookies r)))
                 = Ret (omap (verifiedRequestID E m) (Request_Cookies r)
                        ++ (if AllowIDPInitiated m then [""] else []))).
  { destruct (AllowIDPInitiated m); [reflexivity | now rewrite app_nil_r]. }
  rewrite Hids. simpl. rewrite Hparse.
  rewrite (Authorize_resolves E m w r assertion
             (readCookie ("saml_" +:+ Form_Get r "RelayState", state)) claims uri);
    try assumption.
  - unfold issueSession, SignedString. rewrite Hkey. simpl.
    now rewrite <- app_assoc.
  - rewrite Request_Cookie_jarValue, Hjar. reflexivity.
Qed.

Lemma ServeHTTP_completes_login_witness :
  ServeHTTP (sampleEnv 1060) acceptingMiddleware []
    (sampleRequest "/saml/acs" [] [("saml_abc", sampleCorrelationToken)]
       [("RelayState", ["abc"])])
  = Ret [http.EvSetCookie (readCookie ("saml_abc", Plain ""));
         http.EvSetCookie
           (sessionCookie (sampleEnv 1060) acceptingMiddleware sampleAssertion);
         http.EvRedirect "/private?tab=2" 302].
Proof.
  apply (ServeHTTP_completes_login (sampleEnv 1060) acceptingMiddleware []
           (sampleRequest "/saml/acs" [] [("saml_abc", sampleCorrelationToken)]
              [("RelayState", ["abc"])])
           {| url.Path := "/saml/metadata";
              url.String_ := "https://sp.example.com/saml/metadata" |}
           {| url.Path := "/saml/acs";
              url.String_ := "https://sp.example.com/saml/acs" |}
           sampleCorrelationToken
           (<["uri" := VStr "/private?tab=2"]> (<["id" := VStr sampleRequestID]> ∅))
           "/private?tab=2" sampleAssertion);
    try reflexivity; try discriminate.
  intros cookie claims' Hin Hpre Hacc. simpl in Hin.
  destruct Hin as [<- | []]. vm_compute in Hacc.
  injection Hacc as <-. eexists. reflexivity.
Defined.

(** ** The two gates together *)

(** What [IsAuthorized] makes of the session [Authorize] issued for an
    assertion whose claim names keep apart. *)
Lemma IsAuthorized_issued_session (E1 E2 : Env) (m : Middleware)
    (assertion : saml.Assertion) (r : http.Request) :
  let C := attributeMapping (saml.Attributes assertion) in
  C !! "exp" = None ->
  (forall n1 n2, is_Some (C !! n1) -> is_Some (C !! n2) ->
                 projectedHeader n1 = projectedHeader n2 -> n1 = n2) ->
  TimeFunc E2 <= TimeNow E1 + cookieMaxAge ->
  (forall k, is_Some (http.Header r !! k) -> HasPrefix k "X-Saml" = false) ->
  jarValue (http.Cookies r) "token"
  = Some (http.Value (sessionCookie E1 m assertion)) ->
  exists h,
    IsAuthorized E2 m r = Ret (true, withHeader r h)
    /\ forall n vs, C !! n = Some vs -> Header_values h (projectedHeader n) = vs.
Proof.
  intros C Hexp Hinj Htime Hclean Hjar.
  set (claims := sessionClaims E1 assertion).
  assert (Hin : forall n v, (n, v) ∈ rangeMap (rangeSeed E2) claims -> n <> "exp" ->
                            exists vs, C !! n = Some vs /\ v = stringsValue vs).
  { intros n v Hel Hn. apply elem_of_rangeMap in Hel.
    now apply sessionClaims_lookup in Hel. }
  destruct (projectClaims_strings (rangeMap (rangeSeed E2) claims) (http.Header r))
    as (h & Hrun & Hown & _).
  { apply NoDup_fst_rangeMap. }
  { intros n v Hel Hn. destruct (Hin n v Hel Hn) as (vs & _ & ->). now exists vs. }
  { intros n1 v1 n2 v2 H1 H2 Hn1 Hn2.
    destruct (Hin n1 v1 H1 Hn1) as (vs1 & Hc1 & _).
    destruct (Hin n2 v2 H2 Hn2) as (vs2 & Hc2 & _).
    apply Hinj; eauto. }
  exists h. split.
  - assert (Hacc : acceptedClaims E2 m (http.Value (sessionCookie E1 m assertion))
                   = Some claims).
    { apply acceptedClaims_Some. exists RS256, (saml.Key (ServiceProvider m)).
      repeat split. now apply sessionClaims_not_expired. }
    rewrite (IsAuthorized_accepted E2 m r
               (readCookie (cookieName, http.Value (sessionCookie E1 m assertion)))
               claims).
    + destruct (existsb _ _) eqn:Hfound; [| now rewrite Hrun].
      apply reserved_header_found in Hfound as (k & vs & Hlook & Hk).
      rewrite (Hclean k) in Hk by eauto. discriminate.
    + rewrite Request_Cookie_jarValue. unfold cookieName. now rewrite Hjar.
    + exact Hacc.
  - intros n vs Hc.
    assert (Hn : n <> "exp") by (intros ->; congruence).
    rewrite (Hown n vs); [| | assumption].
    + unfold Header_values.
      destruct (http.Header r !! projectedHeader n) as [old |] eqn:Hlook;
        [| reflexivity].
      assert (Hno : HasPrefix (projectedHeader n) "X-Saml" = false)
        by (apply Hclean; eauto).
      rewrite projectedHeader_reserved in Hno. discriminate.
    + apply elem_of_rangeMap. apply sessionClaims_lookup; [assumption |].
      now exists vs.
Qed.

(** X14. Behind [RequireAccount], the gate made by [RequireAttribute]
    decides on the values the assertion gave: with the session cookie
    issued for an assertion, within its lifetime, the wrapped handler
    runs when the value is among the assertion's values for the
    attribute, on the request with the projected headers, and the answer
    is 403 when it is not. *)
Theorem RequireAccount_RequireAttribute_gate :
  forall (E1 E2 : Env) (m : Middleware) (assertion : saml.Assertion)
         (r : http.Request) (handler : Handler) (w : ResponseWriter)
         (name value : string) (vs : list string),
    let C := attributeMapping (saml.Attributes assertion) in
    C !! "exp" = None ->
    (forall n1 n2, is_Some (C !! n1) -> is_Some (C !! n2) ->
                   projectedHeader n1 = projectedHeader n2 -> n1 = n2) ->
    TimeFunc E2 <= TimeNow E1 + cookieMaxAge ->
    (forall k, is_Some (http.Header r !! k) -> HasPrefix k "X-Saml" = false) ->
    jarValue (http.Cookies r) "token"
    = Some (http.Value (sessionCookie E1 m assertion)) ->
    C !! name = Some vs ->
    exists r',
      IsAuthorized E2 m r = Ret (true, r')
      /\ (value ∈ vs ->
          RequireAccount E2 m (RequireAttribute name value handler) w r
          = handler w r')
      /\ (value ∉ vs ->
          RequireAccount E2 m (RequireAttribute name value handler) w r
          = Ret (w ++ [http.EvError "Forbidden" 403])).
Proof.
  intros E1 E2 m assertion r handler w name value vs C
         Hexp Hinj Htime Hclean Hjar Hname.
  destruct (IsAuthorized_issued_session E1 E2 m assertion r
              Hexp Hinj Htime Hclean Hjar) as (h & Hrun & Hvalues).
  exists (withHeader r h). split; [exact Hrun |].
  assert (Hgate : RequireAccount E2 m (RequireAttribute name value handler) w r
                  = if existsb (String.eqb value) vs
                    then handler w (withHeader r h) else Ret (forbidden w)).
  { unfold RequireAccount. rewrite Hrun. simpl. unfold RequireAttribute. simpl.
    fold (projectedHeader name). now rewrite (Hvalues name vs Hname). }
  rewrite Hgate. split; intros Hin.
  - apply list_elem_of_In, existsb_eqb_In in Hin. now rewrite Hin.
  - destruct (existsb (String.eqb value) vs) eqn:Hex; [| reflexivity].
    apply existsb_eqb_In, list_elem_of_In in Hex. contradiction.
Qed.

Lemma RequireAccount_RequireAttribute_gate_witness :
  RequireAccount (sampleEnv 2000) sampleMiddleware
    (RequireAttribute "role" "admin" sampleHandler) []
    (sampleRequest "/admin" [] [("token", sampleSessionToken)] [])
  = Ret [http.EvWrite "application"]
  /\ RequireAccount (sampleEnv 2000) sampleMiddleware
       (RequireAttribute "role" "root" sampleHandler) []
       (sampleRequest "/admin" [] [("token", sampleSessionToken)] [])
     = Ret [http.EvError "Forbidden" 403].
Proof.
  assert (Hgate : forall value,
             exists r',
               IsAuthorized (sampleEnv 2000) sampleMiddleware
                 (sampleRequest "/admin" [] [("token", sampleSessionToken)] [])
               = Ret (true, r')
               /\ (value ∈ ["user"; "admin"] ->
                   RequireAccount (sampleEnv 2000) sampleMiddleware
                     (RequireAttribute "role" value sampleHandler) []
                     (sampleRequest "/admin" [] [("token", sampleSessionToken)] [])
                   = sampleHandler [] r')
               /\ (value ∉ ["user"; "admin"] ->
                   RequireAccount (sampleEnv 2000) sampleMiddleware
                     (RequireAttribute "role" value sampleHandler) []
                     (sampleRequest "/admin" [] [("token", sampleSessionToken)] [])
                   = Ret [http.EvError "Forbidden" 403])).
  { intros value.
    apply (RequireAccount_RequireAttribute_gate (sampleEnv 1000) (sampleEnv 2000)
             sampleMiddleware sampleAssertion
             (sampleRequest "/admin" [] [("token", sampleSessionToken)] [])
             sampleHandler [] "role" value ["user"; "admin"]);
      try reflexivity.
    - intros n1 n2 [vs1 H1] [vs2 H2].
      assert (Hnames : forall n vs,
                 attributeMapping (saml.Attributes sampleAssertion) !! n = Some vs ->
                 n = "uid" \/ n = "role").
      { intros n vs. unfold attributeMapping, sampleAssertion. simpl.
        rewrite lookup_insert. case_decide; [now right |].
        rewrite lookup_insert. case_decide; [now left |].
        rewrite lookup_empty. discriminate. }
      destruct (Hnames n1 vs1 H1) as [-> | ->], (Hnames n2 vs2 H2) as [-> | ->];
        vm_compute; congruence.
    - unfold cookieMaxAge. simpl. lia.
    - intros k [vs Hk]. simpl in Hk. rewrite lookup_empty in Hk. discriminate. }
  split.
  - destruct (Hgate "admin") as (r' & _ & Hyes & _).
    rewrite Hyes by (right; left). reflexivity.
  - destruct (Hgate "root") as (r' & _ & _ & Hno).
    apply Hno. intros Hin.
    apply elem_of_cons in Hin as [Hin | Hin]; [discriminate |].
    apply elem_of_cons in Hin as [Hin | Hin]; [discriminate |].
    now apply elem_of_nil in Hin.
Defined.

(** ** Failures on the way to the redirect *)

(** X15. On a request without a session that verifies, away from the
    assertion-consumer path: when the protocol engine cannot make an
    authentication request, [RequireAccount] answers 500 with the
    engine's error text; when the engine can but the random source
    fails, it panics.  In both cases no cookie is set and no redirect is
    written. *)
Theorem RequireAccount_failures_before_redirect :
  forall (E : Env) (m : Middleware) (handler : Handler) (w : ResponseWriter)
         (r : http.Request) (acsURL : url.URL),
    (forall cookie, Request_Cookie r cookieName = Some cookie ->
                    acceptedClaims E m (http.Value cookie) = None) ->
    url_Parse E (saml.AcsURL (ServiceProvider m)) = Some acsURL ->
    url.Path (http.URL r) <> url.Path acsURL ->
    (forall err,
        saml.MakeAuthenticationRequest (ServiceProvider m)
          (saml.GetSSOBindingLocation (ServiceProvider m) saml.HTTPRedirectBinding)
        = inr err ->
        RequireAccount E m handler w r = Ret (w ++ [http.EvError err 500]))
    /\ (forall req,
          saml.MakeAuthenticationRequest (ServiceProvider m)
            (saml.GetSSOBindingLocation (ServiceProvider m) saml.HTTPRedirectBinding)
          = inl req ->
          RandReader E 42%nat = None ->
          panics (RequireAccount E m handler w r)).
Proof.
  intros E m handler w r acsURL Hrefused Hacs Hpath.
  assert (Hfalse : IsAuthorized E m r = Ret (false, r)).
  { destruct (Request_Cookie r cookieName) as [cookie |] eqn:Hc.
    - apply (IsAuthorized_refused E m r cookie Hc). now apply Hrefused.
    - now apply IsAuthorized_no_cookie. }
  apply String.eqb_neq in Hpath.
  split.
  - intros err Hreq. unfold RequireAccount.
    rewrite Hfalse. simpl. now rewrite Hacs, Hpath, Hreq.
  - intros req Hreq Hrand. unfold RequireAccount.
    rewrite Hfalse. simpl. rewrite Hacs, Hpath, Hreq.
    unfold randomBytes. rewrite Hrand. simpl. auto with samlsp.
Qed.

Lemma RequireAccount_failures_before_redirect_witness :
  RequireAccount (sampleEnv 1000) acceptingMiddleware sampleHandler []
    (sampleRequest "/private" [] [] [])
  = Ret [http.EvError "no request" 500].
Proof.
  apply (proj1 (RequireAccount_failures_before_redirect (sampleEnv 1000)
                  acceptingMiddleware sampleHandler []
                  (sampleRequest "/private" [] [] [])
                  {| url.Path := "/saml/acs";
                     url.String_ := "https://sp.example.com/saml/acs" |}
                  ltac:(intros cookie Hc; discriminate Hc)
                  eq_refl ltac:(simpl; discriminate))).
  reflexivity.
Defined.
